(** * Differential verification harness for the MarkovJunior port

    A shallow embedding of the three harness scripts

      - [scripts/compare_grids.py]        (cell-level comparator),
      - [scripts/batch_verify.py]         (batch orchestrator and ledger update),
      - [scripts/verification_status.py]  (single-model verify command),

    followed by the properties of the comparator, the generation adapters,
    the target resolution and the status ledger.

    Python integers are [Z]; Python floats are the binary64 floats of
    [PrimFloat]; dicts keyed by strings are [gmap string _]; exceptions are
    the left summand of [py].  The external engines and the file system are
    an explicit [world] threaded through every function that touches them. *)

From Stdlib Require Import ZArith String Ascii DecimalString.
From Stdlib Require Import Floats.
From stdpp Require Import gmap strings list fin_maps sorting.

Local Open Scope string_scope.
Local Open Scope Z_scope.

(** ** Python prelude *)

Module Py.

(** The exceptions the modelled code can raise. *)
Inductive exn :=
| KeyError (key : string)
| ZeroDivisionError
| ValueError (msg : string)
| FileNotFoundError (path : string)
| JSONDecodeError (msg : string)
| TimeoutExpiredError
| OSError (msg : string)
| IndexError
| UnicodeDecodeError.

(** A computation that returns a value or raises. *)
Abbreviation py := (sum exn).

Definition raise {A} (e : exn) : py A := inl e.

#[global] Instance py_ret : MRet py := fun _ x => inr x.
#[global] Instance py_bind : MBind py := fun _ _ f m =>
  match m with
  | inl e => inl e
  | inr x => f x
  end.

#[global] Instance py_fmap : FMap py := fun _ _ f m =>
  match m with
  | inl e => inl e
  | inr x => inr (f x)
  end.

(** [a // b] and [a % b] on integers: floor division, the remainder has the
    sign of the divisor, and a zero divisor raises. *)
Definition floordiv (a b : Z) : py Z :=
  if b =? 0 then raise ZeroDivisionError else mret (a / b).

Definition mod_ (a b : Z) : py Z :=
  if b =? 0 then raise ZeroDivisionError else mret (a mod b).

(** [float(n)] for a non-negative integer below [2^63] (a list length or a
    count of list elements always is). *)
Definition float_of_int (n : Z) : float := PrimFloat.of_uint63 (Uint63.of_Z n).

(** [a / n] with a float numerator and an integer denominator. *)
Definition truediv (a : float) (n : Z) : py float :=
  if n =? 0 then raise ZeroDivisionError else mret (a / float_of_int n)%float.

(** [str(n)] for an integer. *)
Definition str (n : Z) : string := NilZero.string_of_int (Z.to_int n).

(** [sep.join(l)]. *)
Fixpoint join (sep : string) (l : list string) : string :=
  match l with
  | [] => ""
  | [s] => s
  | s :: l' => s ++ sep ++ join sep l'
  end.

(** [str(l)] for a list of integers: ["[4, 4, 1]"]. *)
Definition str_list (l : list Z) : string := "[" ++ join ", " (map str l) ++ "]".

(** [needle in hay] on strings. *)
Fixpoint contains (needle hay : string) : bool :=
  String.prefix needle hay ||
  match hay with
  | EmptyString => false
  | String _ hay' => contains needle hay'
  end.

(** [f"{x:.2f}"]: the decimal expansion of the exact binary value, rounded
    to two places, ties to even. *)
Definition round_half_even (num den : Z) : Z :=
  let q := num / den in
  let r := num mod den in
  match 2 * r ?= den with
  | Lt => q
  | Gt => q + 1
  | Eq => if Z.even q then q else q + 1
  end.

Definition pad2 (n : Z) : string :=
  if n <? 10 then "0" ++ str n else str n.

Definition format_2f (x : float) : string :=
  match Prim2SF x with
  | S754_nan => "nan"
  | S754_infinity s => if s then "-inf" else "inf"
  | S754_zero s => if s then "-0.00" else "0.00"
  | S754_finite s m e =>
      let hundredths :=
        if 0 <=? e then Z.pos m * 100 * 2 ^ e
        else round_half_even (Z.pos m * 100) (2 ^ (- e)) in
      (if s then "-" else "") ++
      str (hundredths / 100) ++ "." ++ pad2 (hundredths mod 100)
  end.

End Py.
Import Py.

(** ** Artifact store, ledger file and external processes *)

Module Store.

(** A grid artifact file as both engines dump it. *)
Record artifact := {
  a_model : option string;
  a_seed : option Z;
  dimensions : list Z;
  state : list Z;
  characters : list string;
}.

(** What [json.load] finds in an artifact file. *)
Inductive file :=
| Json (a : artifact)
| Malformed (err : string).

(** Scalar values stored in a ledger entry. *)
Inductive jval :=
| JInt (z : Z)
| JFloat (f : float)
| JStr (s : string).

(** A ledger entry is a JSON object, a category maps model names to entries,
    and the ledger maps category names (["verified"], ["failed"],
    ["skipped"]) to categories. *)
Abbreviation entry := (gmap string jval).
Abbreviation category := (gmap string (gmap string jval)).
Abbreviation ledger := (gmap string (gmap string (gmap string jval))).

(** What [json.load] finds in the status file. *)
Inductive ledger_file :=
| LedgerJson (status : ledger)
| LedgerMalformed (err : string).

(** The part of the file system the harness reads and writes: the artifact
    files by path, and [STATUS_FILE] ([None] when it does not exist).
    Paths are written relative to the repository root; directories (and the
    [mkdir] calls that create them) are not modelled. *)
Record world := {
  files : gmap string file;
  status_file : option ledger_file;
}.

Definition path_exists (path : string) (w : world) : bool :=
  bool_decide (is_Some (files w !! path)).

Definition unlink (path : string) (w : world) : world :=
  {| files := delete path (files w); status_file := status_file w |}.

Definition write_status (status : ledger) (w : world) : world :=
  {| files := files w; status_file := Some (LedgerJson status) |}.

(** [f"{model_name}_seed{seed}.json"] under a directory. *)
Definition output_path (dir model_name : string) (seed : Z) : string :=
  dir ++ "/" ++ model_name ++ "_seed" ++ str seed ++ ".json".

(** The ledger used when the status file is absent. *)
Definition empty_status : ledger :=
  <["verified" := ∅]> (<["failed" := ∅]> (<["skipped" := ∅]> ∅)).

(** [status.get(key, {})]. *)
Definition get_category (key : string) (status : ledger) : category :=
  default ∅ (status !! key).

(** [status[key]]. *)
Definition category_of (key : string) (status : ledger) : py category :=
  match status !! key with
  | Some c => mret c
  | None => raise (KeyError key)
  end.

(** A ledger that has the two categories the harness writes to. *)
Definition has_categories (status : ledger) : Prop :=
  is_Some (status !! "verified") /\ is_Some (status !! "failed").

(** An invocation of [subprocess.run]. *)
Record command := {
  argv : list string;
  cwd : string;
  env : list (string * string);
  timeout : Z;
}.

(** How an invocation with [text=True] ends: the process exits within the
    timeout and its output decodes as text, it exits within the timeout
    but its output does not decode ([subprocess.run] then raises
    [UnicodeDecodeError]), it is still running at the timeout, or it cannot
    be started.  Every case carries the file system it leaves behind. *)
Inductive outcome :=
| Completed (returncode : Z) (stdout stderr : string) (w : world)
| Undecodable (returncode : Z) (w : world)
| TimedOut (w : world)
| NotStarted (err : string) (w : world).

End Store.
Import Store.

(** ** scripts/compare_grids.py *)

Module compare_grids.

(** One entry of [result["differences"]]. *)
Record difference := {
  d_index : Z;
  d_x : Z;
  d_y : Z;
  d_z : Z;
  d_csharp : Z;
  d_rust : Z;
}.

(** The result dict of [compare].  The keys ["accuracy"] and ["is_perfect"]
    are only added after the cell scan, so they are optional here. *)
Record comparison := {
  model : string;
  seed : Z;
  csharp_dimensions : list Z;
  rust_dimensions : list Z;
  dimensions_match : bool;
  total_cells : Z;
  matching_cells : Z;
  differences : list difference;
  accuracy : option float;
  is_perfect : option bool;
}.

Definition load_json (path : string) (w : world) : py artifact :=
  match files w !! path with
  | None => raise (FileNotFoundError path)
  | Some (Malformed err) => raise (JSONDecodeError err)
  | Some (Json a) => mret a
  end.

(** [mx, my, mz = csharp["dimensions"]]. *)
Definition unpack3 (dims : list Z) : py (Z * Z * Z) :=
  match dims with
  | [mx; my; mz] => mret (mx, my, mz)
  | _ => raise (ValueError "wrong number of values to unpack")
  end.

(** The coordinates of cell [i]: [x = i % mx], [y = (i // mx) % my],
    [z = i // (mx * my)]. *)
Definition coordinates (mx my i : Z) : py (Z * Z * Z) :=
  x ← mod_ i mx;
  q ← floordiv i mx;
  y ← mod_ q my;
  z ← floordiv i (mx * my);
  mret (x, y, z).

(** The loop over [enumerate(zip(csharp["state"], rust["state"]))], started
    at index [i] with the counters accumulated so far. *)
Fixpoint scan (mx my i : Z) (cs rs : list Z)
    (matching : Z) (diffs : list difference) : py (Z * list difference) :=
  match cs, rs with
  | c :: cs', r :: rs' =>
      if c =? r then scan mx my (i + 1) cs' rs' (matching + 1) diffs
      else
        '(x, y, z) ← coordinates mx my i;
        scan mx my (i + 1) cs' rs' matching
          (diffs ++ [{| d_index := i; d_x := x; d_y := y; d_z := z;
                        d_csharp := c; d_rust := r |}])
  | _, _ => mret (matching, diffs)
  end.

(** [chars[v] if v < len(chars) else "?"] of [print_report]: an index from
    [-len(chars)] up is looked up (negative ones from the end), one below
    [-len(chars)] raises. *)
Definition char_at (chars : list string) (v : Z) : py string :=
  let len := Z.of_nat (length chars) in
  if v <? len then
    if 0 <=? v then mret (default "?" (chars !! Z.to_nat v))
    else if - len <=? v then mret (default "?" (chars !! Z.to_nat (v + len)))
    else raise IndexError
  else mret "?".

(** The loop of [print_report] over the differences it is given: the two
    character lookups of each entry, in order.  The lines it prints are
    not modelled, only whether it raises. *)
Fixpoint report_differences (csharp_chars rust_chars : list string)
    (diffs : list difference) : py unit :=
  match diffs with
  | [] => mret tt
  | diff :: rest =>
      _ ← char_at csharp_chars (d_csharp diff);
      _ ← char_at rust_chars (d_rust diff);
      report_differences csharp_chars rust_chars rest
  end.

(** Print a human-readable comparison report ([analyze_diff_patterns], which
    it calls last, only prints). *)
Definition print_report (result : comparison) (csharp rust : artifact) : py unit :=
  match is_perfect result with
  | None => raise (KeyError "is_perfect")
  | Some true => mret tt
  | Some false =>
      if negb (bool_decide (differences result = [])) then
        report_differences (characters csharp) (characters rust)
          (take 20 (differences result))
      else mret tt
  end.

(** [compare] on the two loaded artifacts. *)
Definition compare_loaded (verbose : bool) (csharp rust : artifact)
    : py comparison :=
  let result := {|
    model := default "unknown" (a_model csharp);
    seed := default (-1) (a_seed csharp);
    csharp_dimensions := dimensions csharp;
    rust_dimensions := dimensions rust;
    dimensions_match := bool_decide (dimensions csharp = dimensions rust);
    total_cells := Z.of_nat (length (state csharp));
    matching_cells := 0;
    differences := [];
    accuracy := None;
    is_perfect := None |} in
  if negb (dimensions_match result) then mret result
  else
    '(mx, my, _) ← unpack3 (dimensions csharp);
    '(matching, diffs) ← scan mx my 0 (state csharp) (state rust) 0 [];
    let total := total_cells result in
    acc ← (if 0 <? total
           then truediv (100 * float_of_int matching)%float total
           else mret 100%float);
    let result := {|
      model := model result;
      seed := seed result;
      csharp_dimensions := csharp_dimensions result;
      rust_dimensions := rust_dimensions result;
      dimensions_match := dimensions_match result;
      total_cells := total;
      matching_cells := matching;
      differences := diffs;
      accuracy := Some acc;
      is_perfect := Some (bool_decide (length diffs = 0%nat)) |} in
    _ ← (if verbose then print_report result csharp rust else mret tt);
    mret result.

(** [compare] with its default [verbose=True], as every caller uses it. *)
Definition compare_artifacts (csharp rust : artifact) : py comparison :=
  compare_loaded true csharp rust.

Definition compare (csharp_path rust_path : string) (w : world) : py comparison :=
  csharp ← load_json csharp_path w;
  rust ← load_json rust_path w;
  compare_artifacts csharp rust.

End compare_grids.

(** ** scripts/batch_verify.py *)

Module batch_verify.

Definition MARKOV_DIR : string := "MarkovJunior".
Definition CSHARP_DIR : string := "MarkovJunior/verification".
Definition RUST_DIR : string := "verification/rust".
Definition REPO_ROOT : string := ".".

(** Skipped in [--all] mode: test models, then known unsupported ones. *)
Definition SKIP_MODELS : list string := [
  "RiverTest1"; "RiverTest2"; "RiverTest3"; "RiverTest4"; "RiverTest5";
  "RiverTest6"; "RiverTest7"; "RiverTest8"; "RiverTest9"; "RiverTest10";
  "FlowersTest1"; "FlowersTest2"; "FlowersTest3"; "FlowersTest4";
  "FlowersTest5"; "FlowersTest6";
  "WaveBrickWall"; "WaveDungeon"; "WaveFlowers" ].

(** A [<model>] element of the manifest with the attributes that are read,
    each absent or already converted by [int]. *)
Record model_elem := {
  x_name : option string;
  x_d : option Z;
  x_size : option Z;
  x_height : option Z;
}.

Record model_info := {
  m_name : string;
  is_3d : bool;
}.

(** The body of the loop of [get_all_models] for one element. *)
Definition add_model (acc : gset string * list model_info) (elem : model_elem)
    : gset string * list model_info :=
  let '(seen, models) := acc in
  match x_name elem with
  | Some name =>
      if negb (String.eqb name "") && negb (bool_decide (name ∈ seen)) then
        let d := default 2 (x_d elem) in
        let size := default 16 (x_size elem) in
        let height := default (if d =? 2 then 1 else size) (x_height elem) in
        (seen ∪ {[ name ]},
         (models ++ [{| m_name := name; is_3d := (d =? 3) || (1 <? height) |}])%list)
      else acc
  | None => acc
  end.

Definition get_all_models (root : list model_elem) : list model_info :=
  snd (fold_left add_model root (∅, [])).

(** One element of the [results] list: the dict built by [verify_model].
    ["accuracy"] is only set once the comparison has run. *)
Record result := {
  name : string;
  seed : Z;
  status : string;
  accuracy : option float;
  message : string;
}.

(** [{"seed": ..., "accuracy": ...}]. *)
Definition verified_entry (seed : Z) (accuracy : float) : entry :=
  <["seed" := JInt seed]> (<["accuracy" := JFloat accuracy]> ∅).

(** [{"seed": ..., "accuracy": ..., "reason": ...}]. *)
Definition failed_entry (seed : Z) (accuracy : jval) (reason : string) : entry :=
  <["seed" := JInt seed]>
    (<["accuracy" := accuracy]> (<["reason" := JStr reason]> ∅)).

(** The body of the loop of [update_status] for one result [r], on the
    loaded ledger [st]. *)
Definition record_result (st : ledger) (r : result) : py ledger :=
  if String.eqb (status r) "verified" then
    acc ← from_option mret (raise (KeyError "accuracy")) (accuracy r);
    verified ← category_of "verified" st;
    let st :=
      <["verified" := <[name r := verified_entry (seed r) acc]> verified]> st in
    if bool_decide (is_Some (get_category "failed" st !! name r)) then
      failed ← category_of "failed" st;
      mret (<["failed" := delete (name r) failed]> st)
    else mret st
  else if String.eqb (status r) "failed" then
    failed ← category_of "failed" st;
    mret (<["failed" :=
              <[name r :=
                  failed_entry (seed r)
                    (from_option JFloat (JInt 0) (accuracy r)) (message r)]>
                failed]> st)
  else mret st.

(** What [verify_model] guarantees about a result the ledger update reads:
    a verified result carries its accuracy. *)
Definition well_formed_result (r : result) : Prop :=
  status r = "verified" -> is_Some (accuracy r).

(** [for r in results: ...]. *)
Fixpoint record_results (st : ledger) (results : list result) : py ledger :=
  match results with
  | [] => mret st
  | r :: results' => st' ← record_result st r; record_results st' results'
  end.

(** The ledger [update_status] starts from. *)
Definition initial_status (w : world) : py ledger :=
  match status_file w with
  | None => mret empty_status
  | Some (LedgerJson st) => mret st
  | Some (LedgerMalformed err) => raise (JSONDecodeError err)
  end.

(** Update [status.json] with results. *)
Definition update_status (results : list result) (w : world) : py world :=
  st ← initial_status w;
  st' ← record_results st results;
  mret (write_status st' w).

(** The namespace returned by [parser.parse_args()].  The parser declares
    no exclusive group, so every combination of the fields can occur. *)
Record args := {
  args_models : list string;
  args_all : bool;
  args_all_2d : bool;
  args_list_2d : bool;
  args_list_3d : bool;
  args_seed : Z;
  args_regenerate : bool;
  args_jobs : Z;
}.

(** What [main] decides to do before any model is run. *)
Inductive selection :=
| List2D (models_2d : list model_info)
| List3D (models_3d : list model_info)
| ToVerify (to_verify : list string)
| PrintHelp.

Definition not_skipped (m : model_info) : bool :=
  negb (bool_decide (m_name m ∈ SKIP_MODELS)).

(** [main] from the catalog up to ["Determine which models to verify"]. *)
Definition select (a : args) (all_models : list model_info) : selection :=
  let models_2d :=
    List.filter (fun m => negb (is_3d m) && not_skipped m) all_models in
  let models_3d :=
    List.filter (fun m => is_3d m && not_skipped m) all_models in
  if args_list_2d a then List2D models_2d
  else if args_list_3d a then List3D models_3d
  else if args_all a then
    ToVerify (map m_name (List.filter not_skipped all_models))
  else if args_all_2d a then ToVerify (map m_name models_2d)
  else if negb (bool_decide (args_models a = [])) then ToVerify (args_models a)
  else PrintHelp.

Section engines.

(** The operating system running an external command on the current file
    system. *)
Variable subprocess_run : command -> world -> outcome.

Definition csharp_command (model_name : string) (seed : Z) : command :=
  {| argv := ["dotnet"; "run"; "--"; "--model"; model_name;
              "--seed"; str seed; "--dump-json"];
     cwd := MARKOV_DIR;
     env := [];
     timeout := 300 |}.

Definition rust_command (model_name : string) (seed : Z) : command :=
  {| argv := ["cargo"; "test"; "-p"; "studio_core";
              "verification::tests::batch_generate_outputs";
              "--"; "--ignored"; "--nocapture"];
     cwd := REPO_ROOT;
     env := [("MJ_MODELS", model_name); ("MJ_SEED", str seed)];
     timeout := 300 |}.

(** Generate C# reference output. *)
Definition generate_csharp (model_name : string) (seed : Z) (w : world)
    : bool * world :=
  let output_file := output_path CSHARP_DIR model_name seed in
  if path_exists output_file w then (true, w)
  else
    match subprocess_run (csharp_command model_name seed) w with
    | Completed _ stdout _ w' => (contains "JSON dumped" stdout, w')
    | Undecodable _ w' => (false, w')
    | TimedOut w' => (false, w')
    | NotStarted _ w' => (false, w')
    end.

(** Generate Rust output by running [capture_model_state]. *)
Definition generate_rust (model_name : string) (seed : Z) (w : world)
    : bool * world :=
  let output_file := output_path RUST_DIR model_name seed in
  if path_exists output_file w then (true, w)
  else
    match subprocess_run (rust_command model_name seed) w with
    | Completed _ _ _ w' => (path_exists output_file w', w')
    | Undecodable _ w' => (false, w')
    | TimedOut w' => (false, w')
    | NotStarted _ w' => (false, w')
    end.

(** [sum(1 for c, r in zip(cs_state, rs_state) if c == r)]. *)
Definition count_matches (cs_state rs_state : list Z) : Z :=
  Z.of_nat (length (List.filter (fun p => fst p =? snd p) (zip cs_state rs_state))).

(** Compare C# and Rust outputs.  Returns [(is_match, accuracy, message)]. *)
Definition compare (model_name : string) (seed : Z) (w : world)
    : bool * float * string :=
  let csharp_file := output_path CSHARP_DIR model_name seed in
  let rust_file := output_path RUST_DIR model_name seed in
  match files w !! csharp_file, files w !! rust_file with
  | None, _ => (false, 0%float, "No C# reference")
  | Some _, None => (false, 0%float, "No Rust output")
  | Some (Malformed e), Some _ => (false, 0%float, "JSON error: " ++ e)
  | Some (Json _), Some (Malformed e) => (false, 0%float, "JSON error: " ++ e)
  | Some (Json csharp), Some (Json rust) =>
      if negb (bool_decide (dimensions csharp = dimensions rust)) then
        (false, 0%float,
         "Dim mismatch: " ++ str_list (dimensions csharp) ++ " vs "
           ++ str_list (dimensions rust))
      else
        let cs_state := state csharp in
        let rs_state := state rust in
        let len_cs := Z.of_nat (length cs_state) in
        let len_rs := Z.of_nat (length rs_state) in
        if negb (len_cs =? len_rs) then
          (false, 0%float,
           "Length mismatch: " ++ str len_cs ++ " vs " ++ str len_rs)
        else
          let matches := count_matches cs_state rs_state in
          let accuracy :=
            match cs_state with
            | [] => 100%float
            | _ => (100 * float_of_int matches / float_of_int len_cs)%float
            end in
          if matches =? len_cs then (true, 100%float, "MATCH")
          else
            (false, accuracy,
             format_2f accuracy ++ "% (" ++ str (len_cs - matches) ++ " differ)")
  end.

(** The [if regenerate:] block of [verify_model]. *)
Definition remove_outputs (model_name : string) (seed : Z) (w : world) : world :=
  let csharp_file := output_path CSHARP_DIR model_name seed in
  let rust_file := output_path RUST_DIR model_name seed in
  let w := if path_exists csharp_file w then unlink csharp_file w else w in
  if path_exists rust_file w then unlink rust_file w else w.

(** Verify a single model.  Returns the result dict. *)
Definition verify_model (model_name : string) (seed : Z) (regenerate : bool)
    (w : world) : result * world :=
  let w := if regenerate then remove_outputs model_name seed w else w in
  let '(ok, w) := generate_csharp model_name seed w in
  if negb ok then
    ({| name := model_name; seed := seed; status := "csharp_failed";
        accuracy := None; message := "C# generation failed" |}, w)
  else
    let '(ok, w) := generate_rust model_name seed w in
    if negb ok then
      ({| name := model_name; seed := seed; status := "rust_failed";
          accuracy := None; message := "Rust generation failed" |}, w)
    else
      let '(is_match, accuracy, message) := compare model_name seed w in
      ({| name := model_name; seed := seed;
          status := if is_match then "verified" else "failed";
          accuracy := Some accuracy; message := message |}, w).

(** [for model in to_verify: ...] of [main], with its two counters. *)
Fixpoint verify_each (to_verify : list string) (seed : Z) (regenerate : bool)
    (results : list result) (verified failed : Z) (w : world)
    : list result * Z * Z * world :=
  match to_verify with
  | [] => (results, verified, failed, w)
  | model :: rest =>
      let '(r, w) := verify_model model seed regenerate w in
      let results := (results ++ [r])%list in
      if String.eqb (status r) "verified"
      then verify_each rest seed regenerate results (verified + 1) failed w
      else verify_each rest seed regenerate results verified (failed + 1) w
  end.

(** What a run of [main] reports (the printed lines are not modelled; a
    listing is printed sorted by name). *)
Inductive report :=
| Listing (models : list model_info)
| Help
| Summary (results : list result) (verified failed total : Z).

Definition main (a : args) (root : list model_elem) (w : world)
    : py (report * world) :=
  match select a (get_all_models root) with
  | List2D models_2d => mret (Listing models_2d, w)
  | List3D models_3d => mret (Listing models_3d, w)
  | PrintHelp => mret (Help, w)
  | ToVerify to_verify =>
      let '(results, verified, failed, w) :=
        verify_each to_verify (args_seed a) (args_regenerate a) [] 0 0 w in
      w ← update_status results w;
      mret (Summary results verified failed (Z.of_nat (length to_verify)), w)
  end.

End engines.

End batch_verify.

(** ** scripts/verification_status.py *)

Module verification_status.

Definition MARKOV_DIR : string := "MarkovJunior".
Definition VERIFICATION_DIR : string := "MarkovJunior/verification".
Definition RUST_VERIFICATION_DIR : string := "verification/rust".

(** Load verification status from JSON file. *)
Definition load_status (w : world) : py ledger :=
  match status_file w with
  | Some (LedgerJson st) => mret st
  | Some (LedgerMalformed err) => raise (JSONDecodeError err)
  | None => mret empty_status
  end.

(** Save verification status to JSON file. *)
Definition save_status (st : ledger) (w : world) : world := write_status st w.

(** [sum(1 for c, r in zip(csharp_state, rust_state) if c == r)]. *)
Definition count_matches (csharp_state rust_state : list Z) : Z :=
  Z.of_nat
    (length (List.filter (fun p => fst p =? snd p) (zip csharp_state rust_state))).

(** Compare C# and Rust outputs.  Returns [(is_match, accuracy, details)]. *)
Definition compare_outputs (model_name : string) (seed : Z) (w : world)
    : py (bool * float * string) :=
  let csharp_file := output_path VERIFICATION_DIR model_name seed in
  let rust_file := output_path RUST_VERIFICATION_DIR model_name seed in
  if negb (path_exists csharp_file w) then
    mret (false, 0%float, "C# reference not found: " ++ csharp_file)
  else if negb (path_exists rust_file w) then
    mret (false, 0%float, "Rust output not found: " ++ rust_file)
  else
    csharp ← compare_grids.load_json csharp_file w;
    rust ← compare_grids.load_json rust_file w;
    if negb (bool_decide (dimensions csharp = dimensions rust)) then
      mret (false, 0%float,
            "Dimension mismatch: C#=" ++ str_list (dimensions csharp)
              ++ " Rust=" ++ str_list (dimensions rust))
    else
      let csharp_state := state csharp in
      let rust_state := state rust in
      let len_cs := Z.of_nat (length csharp_state) in
      let len_rs := Z.of_nat (length rust_state) in
      if negb (len_cs =? len_rs) then
        mret (false, 0%float,
              "State length mismatch: C#=" ++ str len_cs ++ " Rust=" ++ str len_rs)
      else
        let matches := count_matches csharp_state rust_state in
        accuracy ← truediv (100 * float_of_int matches)%float len_cs;
        if matches =? len_cs then mret (true, 100%float, "PERFECT MATCH")
        else
          let diff_count := len_cs - matches in
          mret (false, accuracy,
                str diff_count ++ " cells differ (" ++ format_2f accuracy
                  ++ "% match)").

(** [{"seed": ..., "accuracy": ..., "verified_at": ...}]. *)
Definition verified_entry (seed : Z) (accuracy : float) (now : string) : entry :=
  <["seed" := JInt seed]>
    (<["accuracy" := JFloat accuracy]> (<["verified_at" := JStr now]> ∅)).

(** [{"seed": ..., "accuracy": ..., "reason": ...}]. *)
Definition failed_entry (seed : Z) (accuracy : float) (details : string) : entry :=
  <["seed" := JInt seed]>
    (<["accuracy" := JFloat accuracy]> (<["reason" := JStr details]> ∅)).

(** The ["Update status"] block of [cmd_verify]: [now] is what [date -u]
    prints when the entry is written. *)
Definition record_outcome (model_name : string) (seed : Z)
    (outcome : bool * float * string) (now : string) (st : ledger) : py ledger :=
  let '(is_match, accuracy, details) := outcome in
  if is_match then
    verified ← category_of "verified" st;
    let st :=
      <["verified" :=
          <[model_name := verified_entry seed accuracy now]> verified]> st in
    if bool_decide (is_Some (get_category "failed" st !! model_name)) then
      failed ← category_of "failed" st;
      mret (<["failed" := delete model_name failed]> st)
    else mret st
  else
    failed ← category_of "failed" st;
    mret (<["failed" :=
              <[model_name := failed_entry seed accuracy details]> failed]> st).

Section engine.

Variable subprocess_run : command -> world -> outcome.

Definition csharp_command (model_name : string) (seed : Z) : command :=
  {| argv := ["dotnet"; "run"; "--"; "--model"; model_name;
              "--seed"; str seed; "--dump-json"];
     cwd := MARKOV_DIR;
     env := [];
     timeout := 120 |}.

(** Generate C# reference output for a model.  Nothing is caught here: a
    timeout or a failure to start the process propagates. *)
Definition generate_csharp_reference (model_name : string) (seed : Z)
    (w : world) : py (bool * world) :=
  match subprocess_run (csharp_command model_name seed) w with
  | Completed _ stdout _ w' => mret (contains "JSON dumped" stdout, w')
  | Undecodable _ _ => raise UnicodeDecodeError
  | TimedOut _ => raise TimeoutExpiredError
  | NotStarted err _ => raise (OSError err)
  end.

(** Verify a specific model. *)
Definition cmd_verify (model_name : string) (seed : Z) (now : string)
    (w : world) : py world :=
  let csharp_file := output_path VERIFICATION_DIR model_name seed in
  '(generated, w) ←
    (if negb (path_exists csharp_file w)
     then generate_csharp_reference model_name seed w
     else mret (true, w));
  if negb generated then mret w
  else
    let rust_file := output_path RUST_VERIFICATION_DIR model_name seed in
    if negb (path_exists rust_file w) then mret w
    else
      outcome ← compare_outputs model_name seed w;
      st ← load_status w;
      st ← record_outcome model_name seed outcome now st;
      mret (save_status st w).

End engine.

End verification_status.

(** ** The ledger operations of the specification *)

Module Ledger.

(** [record] for a [Verified] outcome: write [verified[model]] and delete
    any [failed[model]] entry. *)
Definition record_verified (model : string) (e : entry) (st : ledger) : ledger :=
  let st := <["verified" := <[model := e]> (get_category "verified" st)]> st in
  match st !! "failed" with
  | Some failed => <["failed" := delete model failed]> st
  | None => st
  end.

(** [record] for a [Failed] outcome: write [failed[model]]. *)
Definition record_failed (model : string) (e : entry) (st : ledger) : ledger :=
  <["failed" := <[model := e]> (get_category "failed" st)]> st.

(** What an update that concerns only [model_names] leaves alone: every
    top-level key other than [verified] and [failed], and in every category
    the entry of every other model. *)
Definition untouched (model_names : list string) (st st' : ledger) : Prop :=
  (forall k, k <> "verified" -> k <> "failed" -> st' !! k = st !! k) /\
  (forall k m, m ∉ model_names ->
     get_category k st' !! m = get_category k st !! m).

(** No model is both under [verified] and under [failed]. *)
Definition exclusive (st : ledger) : Prop :=
  forall model,
    ~ (is_Some (get_category "verified" st !! model) /\
       is_Some (get_category "failed" st !! model)).

End Ledger.

(** ** What the cell scan is expected to report *)

Module Expected.

(** The difference entries of the cells, numbered from [i], at which two
    states disagree. *)
Fixpoint differing_cells (mx my i : Z) (cs rs : list Z)
    : list compare_grids.difference :=
  match cs, rs with
  | c :: cs', r :: rs' =>
      (if c =? r then []
       else [{| compare_grids.d_index := i;
                compare_grids.d_x := i mod mx;
                compare_grids.d_y := (i / mx) mod my;
                compare_grids.d_z := i / (mx * my);
                compare_grids.d_csharp := c;
                compare_grids.d_rust := r |}])
      ++ differing_cells mx my (i + 1) cs' rs'
  | _, _ => []
  end.

(** Two states disagree at some cell they both have. *)
Definition differ_somewhere (cs rs : list Z) : Prop :=
  exists (k : nat) (c r : Z), cs !! k = Some c /\ rs !! k = Some r /\ c <> r.

End Expected.

(** ** Concrete stores and engines used in the examples *)

Module Fixtures.

Definition grid (dims cells : list Z) : artifact :=
  {| a_model := Some "Basic"; a_seed := Some 42;
     dimensions := dims; state := cells; characters := ["B"; "W"; "R"] |}.

(** A store holding a reference and a candidate artifact for ["Basic"],
    seed 42, and no status file. *)
Definition store_of (csharp rust : artifact) : world :=
  {| files :=
       <[output_path batch_verify.CSHARP_DIR "Basic" 42 := Json csharp]>
         (<[output_path batch_verify.RUST_DIR "Basic" 42 := Json rust]> ∅);
     status_file := None |}.

Definition empty_world : world := {| files := ∅; status_file := None |}.

Definition write_file (path : string) (a : artifact) (w : world) : world :=
  {| files := <[path := Json a]> (files w); status_file := status_file w |}.

Definition basic_grid : artifact := grid [3; 3; 1] [0; 1; 2; 1; 0; 2; 2; 1; 0].

(** An engine that prints the success marker and exits with code 0 but
    writes nothing. *)
Definition marker_only (c : command) (w : world) : outcome :=
  Completed 0 "JSON dumped" "" w.

(** An engine that writes the artifact of ["Basic"], seed 42, and exits
    with code 0 without printing the marker. *)
Definition writes_quietly (c : command) (w : world) : outcome :=
  match argv c with
  | "dotnet" :: _ =>
      Completed 0 "done" ""
        (write_file (output_path batch_verify.CSHARP_DIR "Basic" 42) basic_grid w)
  | _ =>
      Completed 0 "done" ""
        (write_file (output_path batch_verify.RUST_DIR "Basic" 42) basic_grid w)
  end.

(** An engine that writes the candidate artifact of ["Basic"], seed 42,
    exits with code 0, and whose output is not valid text. *)
Definition writes_garbled (c : command) (w : world) : outcome :=
  Undecodable 0
    (write_file (output_path batch_verify.RUST_DIR "Basic" 42) basic_grid w).

(** The reference engine dumps its grid and says so; the candidate engine
    is still running at the timeout. *)
Definition candidate_times_out (c : command) (w : world) : outcome :=
  match argv c with
  | "dotnet" :: _ =>
      Completed 0 "JSON dumped" ""
        (write_file (output_path batch_verify.CSHARP_DIR "Basic" 42) basic_grid w)
  | _ => TimedOut w
  end.

(** Both engines dump the same grid. *)
Definition both_agree (c : command) (w : world) : outcome :=
  match argv c with
  | "dotnet" :: _ =>
      Completed 0 "JSON dumped" ""
        (write_file (output_path batch_verify.CSHARP_DIR "Basic" 42) basic_grid w)
  | _ =>
      Completed 0 "" ""
        (write_file (output_path batch_verify.RUST_DIR "Basic" 42) basic_grid w)
  end.

Definition verify_basic : batch_verify.args :=
  {| batch_verify.args_models := ["Basic"];
     batch_verify.args_all := false;
     batch_verify.args_all_2d := false;
     batch_verify.args_list_2d := false;
     batch_verify.args_list_3d := false;
     batch_verify.args_seed := 42;
     batch_verify.args_regenerate := false;
     batch_verify.args_jobs := 1 |}.

Definition model_2d (n : string) : batch_verify.model_elem :=
  {| batch_verify.x_name := Some n; batch_verify.x_d := None;
     batch_verify.x_size := None; batch_verify.x_height := None |}.

Definition model_3d (n : string) : batch_verify.model_elem :=
  {| batch_verify.x_name := Some n; batch_verify.x_d := Some 3;
     batch_verify.x_size := Some 8; batch_verify.x_height := None |}.

(** A manifest of five models, two of them in the skip set. *)
Definition manifest : list batch_verify.model_elem :=
  [model_2d "Basic"; model_2d "River"; model_2d "RiverTest1";
   model_3d "Apartemazements"; model_2d "WaveFlowers"; model_2d "Basic"].

(** The selection of [--all] together with explicit names and [--all-2d]. *)
Definition all_and_names : batch_verify.args :=
  {| batch_verify.args_models := ["Basic"];
     batch_verify.args_all := true;
     batch_verify.args_all_2d := true;
     batch_verify.args_list_2d := false;
     batch_verify.args_list_3d := false;
     batch_verify.args_seed := 42;
     batch_verify.args_regenerate := false;
     batch_verify.args_jobs := 1 |}.

(** The selection of [--all-2d] together with an explicit name. *)
Definition all_2d_and_names : batch_verify.args :=
  {| batch_verify.args_models := ["Apartemazements"];
     batch_verify.args_all := false;
     batch_verify.args_all_2d := true;
     batch_verify.args_list_2d := false;
     batch_verify.args_list_3d := false;
     batch_verify.args_seed := 42;
     batch_verify.args_regenerate := false;
     batch_verify.args_jobs := 1 |}.

(** A ledger in which ["Basic"] failed earlier, ["River"] is verified and
    ["WaveFlowers"] is skipped. *)
Definition stale_ledger : ledger :=
  <["verified" := {[ "River" := batch_verify.verified_entry 42 100%float ]}]>
    (<["failed" :=
         {[ "Basic" :=
              batch_verify.failed_entry 42 (JFloat 50%float) "50.00% (8 differ)" ]}]>
       (<["skipped" := {[ "WaveFlowers" := ∅ ]}]> ∅)).

Definition stale_world : world :=
  {| files := files (store_of basic_grid basic_grid);
     status_file := Some (LedgerJson stale_ledger) |}.

Definition basic_verified : batch_verify.result :=
  {| batch_verify.name := "Basic"; batch_verify.seed := 42;
     batch_verify.status := "verified";
     batch_verify.accuracy := Some 100%float;
     batch_verify.message := "MATCH" |}.

Definition basic_failed : batch_verify.result :=
  {| batch_verify.name := "Basic"; batch_verify.seed := 42;
     batch_verify.status := "failed";
     batch_verify.accuracy := Some 50%float;
     batch_verify.message := "50.00% (8 differ)" |}.

(** [basic_grid] with cell 4 changed from 0 to 2. *)
Definition one_off_grid : artifact :=
  grid [3; 3; 1] [0; 1; 2; 1; 2; 2; 2; 1; 0].

(** The [verified_at] field of the ledger entry of a model after a run of
    the single-model command. *)
Definition verified_at (model : string) (run : py world) : option jval :=
  match run with
  | inr w =>
      match status_file w with
      | Some (LedgerJson st) =>
          get_category "verified" st !! model ≫= (fun e : entry => e !! "verified_at")
      | _ => None
      end
  | inl _ => None
  end.

(** A status file that holds an empty JSON object. *)
Definition bare_world : world :=
  {| files := ∅; status_file := Some (LedgerJson ∅) |}.

Definition river_failed : batch_verify.result :=
  {| batch_verify.name := "River"; batch_verify.seed := 42;
     batch_verify.status := "failed";
     batch_verify.accuracy := Some 50%float;
     batch_verify.message := "50.00% (8 differ)" |}.

End Fixtures.

(** * Properties *)

(** ** The Python prelude on examples *)

Example str_examples : str 42 = "42" /\ str (-1) = "-1" /\ str 0 = "0".
Proof. repeat split; reflexivity. Qed.

Example str_list_dimensions : str_list [4; 4; 1] = "[4, 4, 1]".
Proof. reflexivity. Qed.

Example contains_marker :
  contains "JSON dumped" "Done. JSON dumped to verification" = true /\
  contains "JSON dumped" "JSON dump" = false /\
  contains "" "" = true.
Proof. repeat split; reflexivity. Qed.

Example format_2f_examples :
  format_2f (100 * float_of_int 8 / float_of_int 9)%float = "88.89" /\
  format_2f 0.125%float = "0.12" /\ format_2f 0.375%float = "0.38" /\
  format_2f 100%float = "100.00" /\ format_2f 0%float = "0.00" /\
  format_2f 2.5%float = "2.50" /\
  format_2f (float_of_int 1 / float_of_int 200)%float = "0.01".
Proof. vm_compute. repeat split; reflexivity. Qed.

(** ** The error monad *)

Lemma py_bind_inr {A B} (m : py A) (f : A -> py B) (b : B) :
  m ≫= f = inr b -> exists a, m = inr a /\ f a = inr b.
Proof. destruct m as [e | a]; [discriminate | eauto]. Qed.

Lemma floordiv_ok (a b : Z) : b <> 0 -> floordiv a b = inr (a / b).
Proof. intros Hb. unfold floordiv. apply Z.eqb_neq in Hb. now rewrite Hb. Qed.

Lemma mod_ok (a b : Z) : b <> 0 -> mod_ a b = inr (a mod b).
Proof. intros Hb. unfold mod_. apply Z.eqb_neq in Hb. now rewrite Hb. Qed.

Lemma truediv_zero (a : float) : truediv a 0 = inl ZeroDivisionError.
Proof. reflexivity. Qed.

(** ** Index decomposition *)

Section coordinates.
Import compare_grids.

Lemma coordinates_ok (mx my i : Z) :
  mx <> 0 -> my <> 0 ->
  coordinates mx my i = inr (i mod mx, (i / mx) mod my, i / (mx * my)).
Proof.
  intros Hx Hy. unfold coordinates.
  rewrite (mod_ok i mx Hx), (floordiv_ok i mx Hx). cbn.
  rewrite (mod_ok _ my Hy). cbn.
  rewrite floordiv_ok by lia. reflexivity.
Qed.

(** C9. For positive extents [mx], [my], [mz] and every index [i] in
    [[0, mx*my*mz)], the decomposition [x = i % mx], [y = (i // mx) % my],
    [z = i // (mx*my)] computed by the comparator succeeds, and
    [x + y*mx + z*mx*my] is [i] again (each coordinate lying within its
    extent). *)
Theorem coordinates_roundtrip (mx my mz i : Z) :
  0 < mx -> 0 < my -> 0 < mz -> 0 <= i < mx * my * mz ->
  exists x y z,
    coordinates mx my i = inr (x, y, z) /\
    x = i mod mx /\ y = (i / mx) mod my /\ z = i / (mx * my) /\
    x + y * mx + z * mx * my = i /\
    0 <= x < mx /\ 0 <= y < my /\ 0 <= z < mz.
Proof.
  intros Hx Hy Hz [Hi0 Hi].
  exists (i mod mx), ((i / mx) mod my), (i / (mx * my)).
  split; [apply coordinates_ok; lia |].
  do 3 (split; [reflexivity |]).
  assert (Hdd : i / (mx * my) = i / mx / my) by (rewrite Z.div_div; lia).
  split.
  - rewrite Hdd.
    pose proof (Z.div_mod i mx ltac:(lia)) as E1.
    pose proof (Z.div_mod (i / mx) my ltac:(lia)) as E2.
    nia.
  - split; [apply Z.mod_pos_bound; lia |].
    split; [apply Z.mod_pos_bound; lia |].
    split.
    + apply Z.div_pos; nia.
    + apply Z.div_lt_upper_bound; nia.
Qed.

Lemma coordinates_roundtrip_witness :
  exists x y z,
    coordinates 3 3 4 = inr (x, y, z) /\
    x = 4 mod 3 /\ y = (4 / 3) mod 3 /\ z = 4 / (3 * 3) /\
    x + y * 3 + z * 3 * 3 = 4 /\
    0 <= x < 3 /\ 0 <= y < 3 /\ 0 <= z < 1.
Proof. apply (coordinates_roundtrip 3 3 1 4); lia. Defined.

End coordinates.

(** ** The comparators *)

Section comparators.
Import Fixtures.

Lemma path_exists_true (path : string) (w : world) (f : file) :
  files w !! path = Some f -> path_exists path w = true.
Proof.
  intros H. unfold path_exists. apply bool_decide_eq_true. rewrite H. eauto.
Qed.

Lemma path_exists_false (path : string) (w : world) :
  files w !! path = None -> path_exists path w = false.
Proof.
  intros H. unfold path_exists. apply bool_decide_eq_false. rewrite H.
  intros [? ?]. discriminate.
Qed.

(** The batch comparator on two parsed artifacts whose dimensions differ. *)
Lemma batch_compare_dimension_mismatch (m : string) (s : Z) (w : world)
    (a b : artifact) :
  files w !! output_path batch_verify.CSHARP_DIR m s = Some (Json a) ->
  files w !! output_path batch_verify.RUST_DIR m s = Some (Json b) ->
  dimensions a <> dimensions b ->
  exists reason, batch_verify.compare m s w = (false, 0%float, reason).
Proof.
  intros Ha Hb Hne. unfold batch_verify.compare. rewrite Ha, Hb.
  rewrite bool_decide_eq_false_2 by exact Hne. cbn. eauto.
Qed.

(** The batch comparator on equal dimensions and state lengths that differ. *)
Lemma batch_compare_length_mismatch (m : string) (s : Z) (w : world)
    (a b : artifact) :
  files w !! output_path batch_verify.CSHARP_DIR m s = Some (Json a) ->
  files w !! output_path batch_verify.RUST_DIR m s = Some (Json b) ->
  dimensions a = dimensions b ->
  length (state a) <> length (state b) ->
  exists reason, batch_verify.compare m s w = (false, 0%float, reason).
Proof.
  intros Ha Hb He Hl. unfold batch_verify.compare. rewrite Ha, Hb.
  rewrite bool_decide_eq_true_2 by exact He. cbn.
  assert ((Z.of_nat (length (state a)) =? Z.of_nat (length (state b))) = false)
    as -> by (apply Z.eqb_neq; lia).
  cbn. eauto.
Qed.

(** The batch comparator on equal dimensions and two empty states. *)
Lemma batch_compare_empty (m : string) (s : Z) (w : world) (a b : artifact) :
  files w !! output_path batch_verify.CSHARP_DIR m s = Some (Json a) ->
  files w !! output_path batch_verify.RUST_DIR m s = Some (Json b) ->
  dimensions a = dimensions b ->
  state a = [] -> state b = [] ->
  batch_verify.compare m s w = (true, 100%float, "MATCH").
Proof.
  intros Ha Hb He Sa Sb. unfold batch_verify.compare. rewrite Ha, Hb.
  rewrite bool_decide_eq_true_2 by exact He. rewrite Sa, Sb. reflexivity.
Qed.

(** The cell comparator on equal dimensions and an empty reference state. *)
Lemma compare_grids_empty (a b : artifact) (mx my mz : Z) :
  dimensions a = [mx; my; mz] -> dimensions b = [mx; my; mz] ->
  state a = [] ->
  exists r, compare_grids.compare_artifacts a b = inr r /\
            compare_grids.accuracy r = Some 100%float /\
            compare_grids.total_cells r = 0.
Proof.
  intros Da Db Sa. unfold compare_grids.compare_artifacts, compare_grids.compare_loaded. cbn.
  rewrite Da, Db, Sa. rewrite bool_decide_eq_true_2 by reflexivity.
  cbn. eauto.
Qed.

(** The single-model comparator divides by the state length before it looks
    at the number of matches. *)
Lemma compare_outputs_empty (m : string) (s : Z) (w : world) (a b : artifact) :
  files w !! output_path verification_status.VERIFICATION_DIR m s
    = Some (Json a) ->
  files w !! output_path verification_status.RUST_VERIFICATION_DIR m s
    = Some (Json b) ->
  dimensions a = dimensions b ->
  state a = [] -> state b = [] ->
  verification_status.compare_outputs m s w = inl ZeroDivisionError.
Proof.
  intros Ha Hb He Sa Sb. unfold verification_status.compare_outputs.
  rewrite (path_exists_true _ _ _ Ha), (path_exists_true _ _ _ Hb). cbn.
  unfold compare_grids.load_json. rewrite Ha, Hb. cbn.
  rewrite bool_decide_eq_true_2 by exact He. rewrite Sa, Sb. reflexivity.
Qed.

(** C4. Two artifacts with the same dimensions and empty state sequences:
    the batch comparator and the cell comparator report an accuracy of
    100.0, but [compare_outputs] of the single-model path raises
    [ZeroDivisionError] instead of returning. *)
Theorem compare_outputs_empty_state_raises :
  let w := store_of (grid [0; 0; 0] []) (grid [0; 0; 0] []) in
  batch_verify.compare "Basic" 42 w = (true, 100%float, "MATCH") /\
  (compare_grids.accuracy <$>
     compare_grids.compare
       (output_path batch_verify.CSHARP_DIR "Basic" 42)
       (output_path batch_verify.RUST_DIR "Basic" 42) w)
    = inr (Some 100%float) /\
  verification_status.compare_outputs "Basic" 42 w = inl ZeroDivisionError.
Proof. vm_compute. repeat split; reflexivity. Qed.

(** The cell comparator returns early on differing dimensions, before the
    keys ["accuracy"] and ["is_perfect"] are added to the result. *)
Lemma compare_grids_dimension_mismatch (a b : artifact) :
  dimensions a <> dimensions b ->
  exists r, compare_grids.compare_artifacts a b = inr r /\
            compare_grids.dimensions_match r = false /\
            compare_grids.differences r = [] /\
            compare_grids.matching_cells r = 0 /\
            compare_grids.accuracy r = None /\
            compare_grids.is_perfect r = None.
Proof.
  intros Hne. unfold compare_grids.compare_artifacts, compare_grids.compare_loaded. cbn.
  rewrite bool_decide_eq_false_2 by exact Hne. cbn.
  eexists. split; [reflexivity |]. cbn. auto.
Qed.

Lemma compare_outputs_dimension_mismatch (m : string) (s : Z) (w : world)
    (a b : artifact) :
  files w !! output_path verification_status.VERIFICATION_DIR m s
    = Some (Json a) ->
  files w !! output_path verification_status.RUST_VERIFICATION_DIR m s
    = Some (Json b) ->
  dimensions a <> dimensions b ->
  exists reason,
    verification_status.compare_outputs m s w = inr (false, 0%float, reason).
Proof.
  intros Ha Hb Hne. unfold verification_status.compare_outputs.
  rewrite (path_exists_true _ _ _ Ha), (path_exists_true _ _ _ Hb). cbn.
  unfold compare_grids.load_json. rewrite Ha, Hb. cbn.
  rewrite bool_decide_eq_false_2 by exact Hne. cbn. eauto.
Qed.

Lemma compare_outputs_length_mismatch (m : string) (s : Z) (w : world)
    (a b : artifact) :
  files w !! output_path verification_status.VERIFICATION_DIR m s
    = Some (Json a) ->
  files w !! output_path verification_status.RUST_VERIFICATION_DIR m s
    = Some (Json b) ->
  dimensions a = dimensions b ->
  length (state a) <> length (state b) ->
  exists reason,
    verification_status.compare_outputs m s w = inr (false, 0%float, reason).
Proof.
  intros Ha Hb He Hl. unfold verification_status.compare_outputs.
  rewrite (path_exists_true _ _ _ Ha), (path_exists_true _ _ _ Hb). cbn.
  unfold compare_grids.load_json. rewrite Ha, Hb. cbn.
  rewrite bool_decide_eq_true_2 by exact He. cbn.
  assert ((Z.of_nat (length (state a)) =? Z.of_nat (length (state b))) = false)
    as -> by (apply Z.eqb_neq; lia).
  cbn. eauto.
Qed.

(** C5. Artifacts with dimensions (4,4,1) and (4,5,1): every comparator
    returns without raising and without scanning cells; the batch and
    single-model comparators report accuracy 0.0, but the result of the
    cell comparator has [dimensions_match] false and no differences and
    carries no accuracy at all. *)
Theorem compare_grids_mismatch_lacks_accuracy :
  let w := store_of (grid [4; 4; 1] (replicate 16 0))
                    (grid [4; 5; 1] (replicate 20 0)) in
  compare_grids.compare
    (output_path batch_verify.CSHARP_DIR "Basic" 42)
    (output_path batch_verify.RUST_DIR "Basic" 42) w
  = inr {| compare_grids.model := "Basic";
           compare_grids.seed := 42;
           compare_grids.csharp_dimensions := [4; 4; 1];
           compare_grids.rust_dimensions := [4; 5; 1];
           compare_grids.dimensions_match := false;
           compare_grids.total_cells := 16;
           compare_grids.matching_cells := 0;
           compare_grids.differences := [];
           compare_grids.accuracy := None;
           compare_grids.is_perfect := None |} /\
  batch_verify.compare "Basic" 42 w
  = (false, 0%float, "Dim mismatch: [4, 4, 1] vs [4, 5, 1]") /\
  verification_status.compare_outputs "Basic" 42 w
  = inr (false, 0%float, "Dimension mismatch: C#=[4, 4, 1] Rust=[4, 5, 1]").
Proof. vm_compute. repeat split; reflexivity. Qed.

(** The cell scan stops at the end of the shorter state: cells the
    candidate has beyond the reference length are never looked at. *)
Lemma scan_ignores_surplus (mx my : Z) (cs rs extra : list Z) :
  forall (i matching : Z) (diffs : list compare_grids.difference),
  (length cs <= length rs)%nat ->
  compare_grids.scan mx my i cs (rs ++ extra) matching diffs
  = compare_grids.scan mx my i cs rs matching diffs.
Proof.
  revert rs. induction cs as [| c cs IH]; intros rs i matching diffs Hlen.
  - destruct rs; destruct extra; reflexivity.
  - destruct rs as [| r rs]; [cbn in Hlen; lia |].
    cbn in Hlen. cbn.
    destruct (c =? r).
    + apply IH. lia.
    + destruct (compare_grids.coordinates mx my i) as [e | [[x y] z]];
        [reflexivity |].
      cbn. apply IH. lia.
Qed.

(** C6. Equal dimensions (2,1,1), a reference state of two cells and a
    candidate state of three: the batch and single-model comparators flag
    the length mismatch with accuracy 0.0, but the cell comparator compares
    the common prefix and reports a perfect match. *)
Theorem compare_grids_length_mismatch_unflagged :
  let w := store_of (grid [2; 1; 1] [0; 1]) (grid [2; 1; 1] [0; 1; 2]) in
  compare_grids.compare
    (output_path batch_verify.CSHARP_DIR "Basic" 42)
    (output_path batch_verify.RUST_DIR "Basic" 42) w
  = inr {| compare_grids.model := "Basic";
           compare_grids.seed := 42;
           compare_grids.csharp_dimensions := [2; 1; 1];
           compare_grids.rust_dimensions := [2; 1; 1];
           compare_grids.dimensions_match := true;
           compare_grids.total_cells := 2;
           compare_grids.matching_cells := 2;
           compare_grids.differences := [];
           compare_grids.accuracy := Some 100%float;
           compare_grids.is_perfect := Some true |} /\
  batch_verify.compare "Basic" 42 w
  = (false, 0%float, "Length mismatch: 2 vs 3") /\
  verification_status.compare_outputs "Basic" 42 w
  = inr (false, 0%float, "State length mismatch: C#=2 Rust=3").
Proof. vm_compute. repeat split; reflexivity. Qed.

End comparators.

(** ** The generation adapters *)

Section adapters.
Import Fixtures.

Variable run : command -> world -> outcome.

Lemma generate_rust_cached (m : string) (s : Z) (w : world) :
  path_exists (output_path batch_verify.RUST_DIR m s) w = true ->
  batch_verify.generate_rust run m s w = (true, w).
Proof. intros H. unfold batch_verify.generate_rust. now rewrite H. Qed.

Lemma generate_csharp_cached (m : string) (s : Z) (w : world) :
  path_exists (output_path batch_verify.CSHARP_DIR m s) w = true ->
  batch_verify.generate_csharp run m s w = (true, w).
Proof. intros H. unfold batch_verify.generate_csharp. now rewrite H. Qed.

Lemma generate_rust_timeout (m : string) (s : Z) (w w' : world) :
  path_exists (output_path batch_verify.RUST_DIR m s) w = false ->
  run (batch_verify.rust_command m s) w = TimedOut w' ->
  batch_verify.generate_rust run m s w = (false, w').
Proof. intros H R. unfold batch_verify.generate_rust. now rewrite H, R. Qed.

Lemma generate_csharp_timeout (m : string) (s : Z) (w w' : world) :
  path_exists (output_path batch_verify.CSHARP_DIR m s) w = false ->
  run (batch_verify.csharp_command m s) w = TimedOut w' ->
  batch_verify.generate_csharp run m s w = (false, w').
Proof. intros H R. unfold batch_verify.generate_csharp. now rewrite H, R. Qed.

(** C1, as the code has it. With no cached artifact and the engine process
    completing within the timeout.  When its output decodes as text: the
    candidate adapter succeeds exactly when the expected artifact file
    exists afterwards, whatever the exit code and the text; the two
    reference adapters succeed exactly when the standard output contains
    ["JSON dumped"], whatever the exit code and whether or not the file
    exists.  When its output does not decode as text: the two batch
    adapters report failure, whatever was written, and the reference
    adapter of the single-model command raises [UnicodeDecodeError]. *)
Theorem adapters_success_criterion (m : string) (s rc : Z) (out err : string)
    (w w' : world) :
  (path_exists (output_path batch_verify.RUST_DIR m s) w = false ->
   run (batch_verify.rust_command m s) w = Completed rc out err w' ->
   batch_verify.generate_rust run m s w
   = (path_exists (output_path batch_verify.RUST_DIR m s) w', w')) /\
  (path_exists (output_path batch_verify.CSHARP_DIR m s) w = false ->
   run (batch_verify.csharp_command m s) w = Completed rc out err w' ->
   batch_verify.generate_csharp run m s w
   = (contains "JSON dumped" out, w')) /\
  (run (verification_status.csharp_command m s) w = Completed rc out err w' ->
   verification_status.generate_csharp_reference run m s w
   = inr (contains "JSON dumped" out, w')) /\
  (path_exists (output_path batch_verify.RUST_DIR m s) w = false ->
   run (batch_verify.rust_command m s) w = Undecodable rc w' ->
   batch_verify.generate_rust run m s w = (false, w')) /\
  (path_exists (output_path batch_verify.CSHARP_DIR m s) w = false ->
   run (batch_verify.csharp_command m s) w = Undecodable rc w' ->
   batch_verify.generate_csharp run m s w = (false, w')) /\
  (run (verification_status.csharp_command m s) w = Undecodable rc w' ->
   verification_status.generate_csharp_reference run m s w
   = inl UnicodeDecodeError).
Proof.
  repeat split.
  - intros H R. unfold batch_verify.generate_rust. now rewrite H, R.
  - intros H R. unfold batch_verify.generate_csharp. now rewrite H, R.
  - intros R. unfold verification_status.generate_csharp_reference.
    now rewrite R.
  - intros H R. unfold batch_verify.generate_rust. now rewrite H, R.
  - intros H R. unfold batch_verify.generate_csharp. now rewrite H, R.
  - intros R. unfold verification_status.generate_csharp_reference.
    now rewrite R.
Qed.

(** C2, as the code has it. When the reference adapter succeeds and the
    candidate adapter fails, [verify_model] returns the result
    [rust_failed] / ["Rust generation failed"] without an accuracy (the
    comparison is not run); the loop of the batch run appends that result
    and adds one to its failed count, leaving the verified count; and the
    ledger update passes over that result: the ledger written back is the
    ledger that was loaded. *)
Theorem candidate_failure_not_recorded (m : string) (s : Z) (regenerate : bool)
    (w w1 w2 : world) :
  batch_verify.generate_csharp run m s
    (if regenerate then batch_verify.remove_outputs m s w else w) = (true, w1) ->
  batch_verify.generate_rust run m s w1 = (false, w2) ->
  let r := {| batch_verify.name := m; batch_verify.seed := s;
              batch_verify.status := "rust_failed";
              batch_verify.accuracy := None;
              batch_verify.message := "Rust generation failed" |} in
  batch_verify.verify_model run m s regenerate w = (r, w2) /\
  (forall st, batch_verify.record_result st r = inr st) /\
  (forall st, batch_verify.initial_status w2 = inr st ->
              batch_verify.update_status [r] w2 = inr (write_status st w2)) /\
  (forall rest results verified failed,
     batch_verify.verify_each run (m :: rest) s regenerate results verified
       failed w
     = batch_verify.verify_each run rest s regenerate (results ++ [r])
         verified (failed + 1) w2).
Proof.
  intros Hc Hr r.
  assert (batch_verify.verify_model run m s regenerate w = (r, w2)) as Hv.
  { unfold batch_verify.verify_model. rewrite Hc. cbn. rewrite Hr.
    reflexivity. }
  split; [exact Hv |]. split; [| split].
  - intros st. reflexivity.
  - intros st Hst. unfold batch_verify.update_status. rewrite Hst. reflexivity.
  - intros rest results verified failed.
    cbn [batch_verify.verify_each]. rewrite Hv. reflexivity.
Qed.

End adapters.

Section adapter_examples.
Import Fixtures.

Lemma adapters_success_criterion_witness :
  (path_exists (output_path batch_verify.RUST_DIR "Basic" 42) empty_world = false /\
   batch_verify.generate_rust both_agree "Basic" 42 empty_world
   = (true,
      write_file (output_path batch_verify.RUST_DIR "Basic" 42) basic_grid
        empty_world)) /\
  (path_exists (output_path batch_verify.CSHARP_DIR "Basic" 42) empty_world = false /\
   batch_verify.generate_csharp writes_quietly "Basic" 42 empty_world
   = (false,
      write_file (output_path batch_verify.CSHARP_DIR "Basic" 42) basic_grid
        empty_world)) /\
  verification_status.generate_csharp_reference marker_only "Basic" 42 empty_world
  = inr (true, empty_world) /\
  batch_verify.generate_rust writes_garbled "Basic" 42 empty_world
  = (false,
     write_file (output_path batch_verify.RUST_DIR "Basic" 42) basic_grid
       empty_world) /\
  verification_status.generate_csharp_reference writes_garbled "Basic" 42
    empty_world
  = inl UnicodeDecodeError.
Proof.
  split; [split; [reflexivity |] | split; [split; [reflexivity |] | split; [| split]]].
  - destruct (adapters_success_criterion both_agree "Basic" 42 0 "" ""
                empty_world
                (write_file (output_path batch_verify.RUST_DIR "Basic" 42)
                   basic_grid empty_world)) as (H & _).
    apply H; reflexivity.
  - destruct (adapters_success_criterion writes_quietly "Basic" 42 0 "done" ""
                empty_world
                (write_file (output_path batch_verify.CSHARP_DIR "Basic" 42)
                   basic_grid empty_world)) as (_ & H & _).
    apply H; reflexivity.
  - destruct (adapters_success_criterion marker_only "Basic" 42 0
                "JSON dumped" "" empty_world empty_world) as (_ & _ & H & _).
    apply H. reflexivity.
  - destruct (adapters_success_criterion writes_garbled "Basic" 42 0 "" ""
                empty_world
                (write_file (output_path batch_verify.RUST_DIR "Basic" 42)
                   basic_grid empty_world)) as (_ & _ & _ & H & _).
    apply H; reflexivity.
  - destruct (adapters_success_criterion writes_garbled "Basic" 42 0 "" ""
                empty_world
                (write_file (output_path batch_verify.RUST_DIR "Basic" 42)
                   basic_grid empty_world)) as (_ & _ & _ & _ & _ & H).
    apply H. reflexivity.
Defined.

(** C1 fails on the reference adapter: the engine exits with code 0 and
    prints the marker but writes no artifact; no artifact was cached, none
    exists afterwards, and [generate_csharp] still returns success. *)
Lemma generate_csharp_success_without_artifact :
  path_exists (output_path batch_verify.CSHARP_DIR "Basic" 42) empty_world = false /\
  marker_only (batch_verify.csharp_command "Basic" 42) empty_world
  = Completed 0 "JSON dumped" "" empty_world /\
  batch_verify.generate_csharp marker_only "Basic" 42 empty_world
  = (true, empty_world) /\
  ~ (fst (batch_verify.generate_csharp marker_only "Basic" 42 empty_world) = true
     <-> path_exists (output_path batch_verify.CSHARP_DIR "Basic" 42)
           (snd (batch_verify.generate_csharp marker_only "Basic" 42 empty_world))
         = true).
Proof.
  repeat split; try reflexivity.
  intros [H _]. specialize (H eq_refl). vm_compute in H. discriminate.
Qed.

Lemma candidate_failure_not_recorded_witness :
  let r := {| batch_verify.name := "Basic"; batch_verify.seed := 42;
              batch_verify.status := "rust_failed";
              batch_verify.accuracy := None;
              batch_verify.message := "Rust generation failed" |} in
  let w2 := write_file (output_path batch_verify.CSHARP_DIR "Basic" 42)
              basic_grid empty_world in
  batch_verify.verify_model candidate_times_out "Basic" 42 false empty_world
  = (r, w2) /\
  (forall st, batch_verify.record_result st r = inr st) /\
  (forall st, batch_verify.initial_status w2 = inr st ->
              batch_verify.update_status [r] w2 = inr (write_status st w2)) /\
  (forall rest results verified failed,
     batch_verify.verify_each candidate_times_out ("Basic" :: rest) 42 false
       results verified failed empty_world
     = batch_verify.verify_each candidate_times_out rest 42 false
         (results ++ [r]) verified (failed + 1) w2).
Proof.
  apply (candidate_failure_not_recorded candidate_times_out "Basic" 42 false
           empty_world
           (write_file (output_path batch_verify.CSHARP_DIR "Basic" 42)
              basic_grid empty_world));
    reflexivity.
Defined.

(** C2 fails on the ledger: a batch run on ["Basic"] whose candidate engine
    times out reports the model as failed, runs no comparison, and writes a
    ledger in which ["Basic"] has no [failed] entry. *)
Lemma generation_failure_missing_from_ledger :
  exists w' st,
    batch_verify.main candidate_times_out verify_basic manifest empty_world
    = inr (batch_verify.Summary
             [{| batch_verify.name := "Basic"; batch_verify.seed := 42;
                 batch_verify.status := "rust_failed";
                 batch_verify.accuracy := None;
                 batch_verify.message := "Rust generation failed" |}]
             0 1 1, w') /\
    status_file w' = Some (LedgerJson st) /\
    get_category "failed" st !! "Basic" = None.
Proof.
  eexists. eexists. split; [vm_compute; reflexivity |].
  split; [reflexivity |]. vm_compute. reflexivity.
Qed.

End adapter_examples.

(** ** Target resolution *)

Section selection.
Import Fixtures.

Lemma get_all_models_manifest :
  map batch_verify.m_name (batch_verify.get_all_models manifest)
  = ["Basic"; "River"; "RiverTest1"; "Apartemazements"; "WaveFlowers"].
Proof. vm_compute. reflexivity. Qed.

(** C3, as the code has it. Once the two listing flags are off, the mode is
    resolved in the order [--all], then [--all-2d], then the explicit model
    names, then the help text; the first mode that is set decides alone,
    the others are ignored, and no combination of modes is rejected. *)
Theorem select_priority (a : batch_verify.args)
    (all_models : list batch_verify.model_info) :
  batch_verify.args_list_2d a = false ->
  batch_verify.args_list_3d a = false ->
  let unskipped := List.filter batch_verify.not_skipped all_models in
  let unskipped_2d :=
    List.filter
      (fun m => negb (batch_verify.is_3d m) && batch_verify.not_skipped m)
      all_models in
  (batch_verify.args_all a = true ->
   batch_verify.select a all_models
   = batch_verify.ToVerify (map batch_verify.m_name unskipped)) /\
  (batch_verify.args_all a = false ->
   batch_verify.args_all_2d a = true ->
   batch_verify.select a all_models
   = batch_verify.ToVerify (map batch_verify.m_name unskipped_2d)) /\
  (batch_verify.args_all a = false ->
   batch_verify.args_all_2d a = false ->
   batch_verify.args_models a <> [] ->
   batch_verify.select a all_models
   = batch_verify.ToVerify (batch_verify.args_models a)) /\
  (batch_verify.args_all a = false ->
   batch_verify.args_all_2d a = false ->
   batch_verify.args_models a = [] ->
   batch_verify.select a all_models = batch_verify.PrintHelp).
Proof.
  intros L2 L3 unskipped unskipped_2d. unfold batch_verify.select.
  rewrite L2, L3. repeat split.
  - intros ->. reflexivity.
  - intros -> ->. reflexivity.
  - intros -> -> Hm.
    rewrite bool_decide_eq_false_2 by exact Hm. reflexivity.
  - intros -> -> Hm.
    rewrite bool_decide_eq_true_2 by exact Hm. reflexivity.
Qed.

Lemma select_priority_witness :
  batch_verify.select all_and_names (batch_verify.get_all_models manifest)
  = batch_verify.ToVerify ["Basic"; "River"; "Apartemazements"] /\
  batch_verify.select all_2d_and_names (batch_verify.get_all_models manifest)
  = batch_verify.ToVerify ["Basic"; "River"] /\
  batch_verify.select verify_basic (batch_verify.get_all_models manifest)
  = batch_verify.ToVerify ["Basic"].
Proof.
  split; [| split].
  - apply (select_priority all_and_names (batch_verify.get_all_models manifest));
      reflexivity.
  - apply (select_priority all_2d_and_names
             (batch_verify.get_all_models manifest)); reflexivity.
  - apply (select_priority verify_basic (batch_verify.get_all_models manifest));
      [reflexivity | reflexivity | reflexivity | reflexivity | discriminate].
Defined.

(** C3 fails on the code: with [--all] and the explicit name ["Basic"]
    both given, the invocation is not rejected and the explicit list does
    not win: every model outside the skip set is selected.  With
    [--all-2d] and the explicit 3D model ["Apartemazements"], the 2D filter
    wins and the named model is not verified. *)
Lemma select_all_overrides_names :
  batch_verify.select all_and_names (batch_verify.get_all_models manifest)
  = batch_verify.ToVerify ["Basic"; "River"; "Apartemazements"] /\
  batch_verify.select all_and_names (batch_verify.get_all_models manifest)
  <> batch_verify.ToVerify (batch_verify.args_models all_and_names) /\
  batch_verify.select all_2d_and_names (batch_verify.get_all_models manifest)
  = batch_verify.ToVerify ["Basic"; "River"] /\
  batch_verify.select all_2d_and_names (batch_verify.get_all_models manifest)
  <> batch_verify.ToVerify (batch_verify.args_models all_2d_and_names).
Proof.
  repeat split; try (vm_compute; reflexivity); vm_compute; discriminate.
Qed.

End selection.

(** ** The ledger operations *)

Section ledger_operations.
Import Ledger.

Implicit Types (st : ledger) (e : entry) (model k : string).

Lemma category_of_lookup k st (c : category) :
  st !! k = Some c -> category_of k st = inr c.
Proof. intros H. unfold category_of. now rewrite H. Qed.

Lemma get_category_lookup k st (c : category) :
  st !! k = Some c -> get_category k st = c.
Proof. intros H. unfold get_category. now rewrite H. Qed.

Lemma empty_status_has_categories : has_categories empty_status.
Proof. split; vm_compute; eauto. Qed.

Lemma record_verified_failed model e st :
  get_category "failed" (record_verified model e st) !! model = None.
Proof.
  unfold record_verified, get_category.
  rewrite lookup_insert_ne by done.
  destruct (st !! "failed") as [f |] eqn:Hf.
  - rewrite lookup_insert_eq. cbn. apply lookup_delete_eq.
  - rewrite lookup_insert_ne by done. rewrite Hf. reflexivity.
Qed.

Lemma record_verified_verified model e st :
  record_verified model e st !! "verified"
  = Some (<[model := e]> (get_category "verified" st)).
Proof.
  unfold record_verified. rewrite lookup_insert_ne by done.
  destruct (st !! "failed");
    [rewrite lookup_insert_ne by done |]; apply lookup_insert_eq.
Qed.

Lemma record_verified_other_key model e st k :
  k <> "verified" -> k <> "failed" ->
  record_verified model e st !! k = st !! k.
Proof.
  intros Hv Hf. unfold record_verified. rewrite lookup_insert_ne by done.
  destruct (st !! "failed");
    [rewrite lookup_insert_ne by done |]; now rewrite lookup_insert_ne.
Qed.

Lemma record_verified_other_model model e st k m :
  m <> model ->
  get_category k (record_verified model e st) !! m = get_category k st !! m.
Proof.
  intros Hm.
  destruct (decide (k = "verified")) as [-> | Hv].
  { unfold get_category at 1. rewrite record_verified_verified. cbn.
    now rewrite lookup_insert_ne. }
  destruct (decide (k = "failed")) as [-> | Hf].
  - unfold record_verified, get_category.
    rewrite lookup_insert_ne by done.
    destruct (st !! "failed") as [f |] eqn:E.
    + rewrite lookup_insert_eq. cbn. now rewrite lookup_delete_ne.
    + rewrite lookup_insert_ne by done. now rewrite E.
  - unfold get_category. now rewrite record_verified_other_key.
Qed.

(** A second [Verified] record for the same model replaces the first. *)
Lemma record_verified_twice model e1 e2 st :
  record_verified model e2 (record_verified model e1 st)
  = record_verified model e2 st.
Proof.
  unfold record_verified at 1.
  rewrite (get_category_lookup _ _ _ (record_verified_verified model e1 st)).
  rewrite insert_insert_eq.
  rewrite lookup_insert_ne by done.
  unfold record_verified. rewrite !lookup_insert_ne by done.
  destruct (st !! "failed") as [f |] eqn:Hf.
  - rewrite lookup_insert_eq.
    apply map_eq. intros k.
    destruct (decide (k = "failed")) as [-> | Hk].
    + rewrite !lookup_insert_eq. f_equal.
      apply map_eq. intros m. destruct (decide (m = model)) as [-> | Hm].
      * now rewrite !lookup_delete_eq.
      * now rewrite !lookup_delete_ne.
    + rewrite (lookup_insert_ne _ "failed" k) by done.
      rewrite (lookup_insert_ne _ "failed" k) by done.
      destruct (decide (k = "verified")) as [-> | Hk'].
      * now rewrite !lookup_insert_eq.
      * rewrite !lookup_insert_ne by done. reflexivity.
  - rewrite !lookup_insert_ne by done. rewrite Hf.
    now rewrite insert_insert_eq.
Qed.

Lemma record_failed_verified model e st :
  record_failed model e st !! "verified" = st !! "verified".
Proof. unfold record_failed. now rewrite lookup_insert_ne. Qed.

Lemma record_failed_other_key model e st k :
  k <> "failed" -> record_failed model e st !! k = st !! k.
Proof. intros Hf. unfold record_failed. now rewrite lookup_insert_ne. Qed.

Lemma record_failed_other_model model e st k m :
  m <> model ->
  get_category k (record_failed model e st) !! m = get_category k st !! m.
Proof.
  intros Hm. destruct (decide (k = "failed")) as [-> | Hf].
  - unfold record_failed, get_category at 1. rewrite lookup_insert_eq. cbn.
    now rewrite lookup_insert_ne.
  - unfold get_category. now rewrite record_failed_other_key.
Qed.

Lemma record_verified_has_categories model e st :
  has_categories st -> has_categories (record_verified model e st).
Proof.
  intros [_ [f Hf]]. split.
  - rewrite record_verified_verified. eauto.
  - unfold record_verified. rewrite lookup_insert_ne by done. rewrite Hf.
    rewrite lookup_insert_eq. eauto.
Qed.

Lemma record_failed_has_categories model e st :
  has_categories st -> has_categories (record_failed model e st).
Proof.
  intros [Hv _]. split.
  - now rewrite record_failed_verified.
  - unfold record_failed. rewrite lookup_insert_eq. eauto.
Qed.

End ledger_operations.

(** ** The ledger updates of the two scripts *)

Section ledger_updates.
Import Ledger.

Implicit Types (st : ledger) (e : entry) (model k : string).

(** The [if name in status.get("failed", {}): del status["failed"][name]]
    step never raises and deletes the entry whenever the category exists. *)
Lemma clear_failed_step model st :
  (if bool_decide (is_Some (get_category "failed" st !! model)) then
     failed ← category_of "failed" st;
     mret (<["failed" := delete model failed]> st)
   else mret st)
  = inr (match st !! "failed" with
         | Some failed => <["failed" := delete model failed]> st
         | None => st
         end).
Proof.
  unfold get_category, category_of.
  destruct (st !! "failed") as [f |] eqn:Hf; cbn.
  - case_bool_decide as Hin; cbn; [reflexivity |].
    assert (f !! model = None) as Hn.
    { destruct (f !! model) eqn:E; [exfalso; apply Hin; eauto | reflexivity]. }
    rewrite delete_id by exact Hn. now rewrite insert_id.
  - case_bool_decide as Hin; [| reflexivity].
    destruct Hin as [? Hin]. rewrite lookup_empty in Hin. discriminate.
Qed.

Lemma record_result_verified st (r : batch_verify.result) (acc : float) :
  batch_verify.status r = "verified" ->
  batch_verify.accuracy r = Some acc ->
  is_Some (st !! "verified") ->
  batch_verify.record_result st r
  = inr (record_verified (batch_verify.name r)
           (batch_verify.verified_entry (batch_verify.seed r) acc) st).
Proof.
  intros Hs Ha [v Hv]. unfold batch_verify.record_result.
  rewrite Hs, Ha. cbn. rewrite (category_of_lookup _ _ _ Hv). cbn.
  rewrite clear_failed_step. unfold record_verified.
  now rewrite (get_category_lookup _ _ _ Hv).
Qed.

Lemma record_result_failed st (r : batch_verify.result) :
  batch_verify.status r = "failed" ->
  is_Some (st !! "failed") ->
  batch_verify.record_result st r
  = inr (record_failed (batch_verify.name r)
           (batch_verify.failed_entry (batch_verify.seed r)
              (from_option JFloat (JInt 0) (batch_verify.accuracy r))
              (batch_verify.message r)) st).
Proof.
  intros Hs [f Hf]. unfold batch_verify.record_result.
  rewrite Hs. cbn. rewrite (category_of_lookup _ _ _ Hf). cbn.
  unfold record_failed. now rewrite (get_category_lookup _ _ _ Hf).
Qed.

Lemma record_result_other st (r : batch_verify.result) :
  batch_verify.status r <> "verified" ->
  batch_verify.status r <> "failed" ->
  batch_verify.record_result st r = inr st.
Proof.
  intros Hv Hf. unfold batch_verify.record_result.
  apply String.eqb_neq in Hv, Hf. now rewrite Hv, Hf.
Qed.

Lemma record_outcome_verified model (seed : Z) (acc : float)
    (details now : string) st :
  is_Some (st !! "verified") ->
  verification_status.record_outcome model seed (true, acc, details) now st
  = inr (record_verified model
           (verification_status.verified_entry seed acc now) st).
Proof.
  intros [v Hv]. unfold verification_status.record_outcome.
  rewrite (category_of_lookup _ _ _ Hv). cbn.
  rewrite clear_failed_step. unfold record_verified.
  now rewrite (get_category_lookup _ _ _ Hv).
Qed.

Lemma record_outcome_failed model (seed : Z) (acc : float)
    (details now : string) st :
  is_Some (st !! "failed") ->
  verification_status.record_outcome model seed (false, acc, details) now st
  = inr (record_failed model
           (verification_status.failed_entry seed acc details) st).
Proof.
  intros [f Hf]. unfold verification_status.record_outcome.
  rewrite (category_of_lookup _ _ _ Hf). cbn.
  unfold record_failed. now rewrite (get_category_lookup _ _ _ Hf).
Qed.

(** C7. On a ledger that has its [verified] and [failed] categories, in the
    batch update and in the single-model command alike: recording a
    verified outcome for a model succeeds, stores the entry under
    [verified] and leaves the model absent from [failed]; recording a
    failed outcome succeeds and leaves the whole [verified] category, hence
    any [verified] entry of the model, unchanged. *)
Theorem verified_clears_failed_only st :
  has_categories st ->
  (forall (r : batch_verify.result) (acc : float),
     batch_verify.status r = "verified" ->
     batch_verify.accuracy r = Some acc ->
     exists st',
       batch_verify.record_result st r = inr st' /\
       get_category "failed" st' !! batch_verify.name r = None /\
       get_category "verified" st' !! batch_verify.name r
       = Some (batch_verify.verified_entry (batch_verify.seed r) acc)) /\
  (forall (r : batch_verify.result),
     batch_verify.status r = "failed" ->
     exists st',
       batch_verify.record_result st r = inr st' /\
       st' !! "verified" = st !! "verified") /\
  (forall model (seed : Z) (acc : float) (details now : string),
     exists st',
       verification_status.record_outcome model seed (true, acc, details) now st
       = inr st' /\
       get_category "failed" st' !! model = None /\
       get_category "verified" st' !! model
       = Some (verification_status.verified_entry seed acc now)) /\
  (forall model (seed : Z) (acc : float) (details now : string),
     exists st',
       verification_status.record_outcome model seed (false, acc, details) now st
       = inr st' /\
       st' !! "verified" = st !! "verified").
Proof.
  intros [Hv Hf]. split; [| split; [| split]].
  - intros r acc Hs Ha. eexists.
    split; [apply (record_result_verified st r acc); assumption |].
    split; [apply record_verified_failed |].
    unfold get_category at 1. rewrite record_verified_verified. cbn.
    apply lookup_insert_eq.
  - intros r Hs. eexists. split; [now apply record_result_failed |].
    apply record_failed_verified.
  - intros model seed acc details now. eexists.
    split; [now apply record_outcome_verified |].
    split; [apply record_verified_failed |].
    unfold get_category at 1. rewrite record_verified_verified. cbn.
    apply lookup_insert_eq.
  - intros model seed acc details now. eexists.
    split; [now apply record_outcome_failed |].
    apply record_failed_verified.
Qed.

End ledger_updates.

Section ledger_examples.
Import Fixtures.

Lemma stale_ledger_has_categories : has_categories stale_ledger.
Proof. split; vm_compute; eauto. Qed.

Lemma verified_clears_failed_only_witness :
  has_categories stale_ledger /\
  (exists st',
     batch_verify.record_result stale_ledger basic_verified = inr st' /\
     get_category "failed" st' !! "Basic" = None /\
     get_category "verified" st' !! "Basic"
     = Some (batch_verify.verified_entry 42 100%float)) /\
  (exists st',
     batch_verify.record_result stale_ledger basic_failed = inr st' /\
     st' !! "verified" = stale_ledger !! "verified").
Proof.
  assert (has_categories stale_ledger) as H by (split; vm_compute; eauto).
  split; [exact H |].
  destruct (verified_clears_failed_only stale_ledger H) as (Hv & Hf & _).
  split.
  - apply (Hv basic_verified 100%float); reflexivity.
  - apply (Hf basic_failed); reflexivity.
Defined.

End ledger_examples.

(** ** Idempotence and frame of the ledger update *)

Section ledger_batch.
Import Ledger Fixtures.

Implicit Types (st : ledger) (e : entry) (model k : string).

(** C8, as the code has it. On a ledger that has its categories: in the
    batch update, recording the same verified result a second time returns
    the ledger unchanged, so two recordings equal one, also through the
    status file; in the single-model command the entry carries the time of
    the recording in its [verified_at] field, so two recordings equal one
    recording made at the time of the second, and equal the first one if
    and only if the two times coincide. *)
Theorem verified_record_idempotent st :
  has_categories st ->
  (forall (r : batch_verify.result) (acc : float),
     batch_verify.status r = "verified" ->
     batch_verify.accuracy r = Some acc ->
     exists st1,
       batch_verify.record_result st r = inr st1 /\
       batch_verify.record_result st1 r = inr st1 /\
       batch_verify.record_results st [r; r] = inr st1 /\
       forall w, batch_verify.initial_status w = inr st ->
         batch_verify.update_status [r] w = inr (write_status st1 w) /\
         batch_verify.update_status [r] (write_status st1 w)
         = inr (write_status st1 w)) /\
  (forall model (seed : Z) (acc : float) (d1 d2 t1 t2 : string),
     exists st1 st2,
       verification_status.record_outcome model seed (true, acc, d1) t1 st
       = inr st1 /\
       verification_status.record_outcome model seed (true, acc, d2) t2 st1
       = inr st2 /\
       verification_status.record_outcome model seed (true, acc, d2) t2 st
       = inr st2 /\
       (get_category "verified" st1 !! model
          ≫= (fun e : entry => e !! "verified_at")) = Some (JStr t1) /\
       (get_category "verified" st2 !! model
          ≫= (fun e : entry => e !! "verified_at")) = Some (JStr t2) /\
       (st2 = st1 <-> t1 = t2)).
Proof.
  intros Hc. pose proof Hc as [Hv Hf]. split.
  - intros r acc Hs Ha.
    set (e := batch_verify.verified_entry (batch_verify.seed r) acc).
    set (st1 := record_verified (batch_verify.name r) e st).
    assert (batch_verify.record_result st r = inr st1) as E1
      by (apply record_result_verified; assumption).
    assert (batch_verify.record_result st1 r = inr st1) as E2.
    { rewrite (record_result_verified st1 r acc Hs Ha).
      - unfold st1. now rewrite record_verified_twice.
      - apply record_verified_has_categories, Hc. }
    exists st1. split; [exact E1 |]. split; [exact E2 |]. split.
    + cbn. rewrite E1. cbn. rewrite E2. reflexivity.
    + intros w Hw. unfold batch_verify.update_status. rewrite Hw. cbn.
      rewrite E1. cbn. rewrite E2. cbn. split; reflexivity.
  - intros model seed acc d1 d2 t1 t2.
    exists (record_verified model
              (verification_status.verified_entry seed acc t1) st),
           (record_verified model
              (verification_status.verified_entry seed acc t2) st).
    split; [now apply record_outcome_verified |].
    split.
    + rewrite record_outcome_verified
        by (apply record_verified_has_categories, Hc).
      now rewrite record_verified_twice.
    + split; [now apply record_outcome_verified |].
      assert (forall t,
                (get_category "verified"
                   (record_verified model
                      (verification_status.verified_entry seed acc t) st)
                   !! model ≫= (fun e : entry => e !! "verified_at"))
                = Some (JStr t)) as Hat.
      { intros t. unfold get_category at 1.
        rewrite record_verified_verified. cbn.
        rewrite lookup_insert_eq. reflexivity. }
      split; [apply Hat |]. split; [apply Hat |].
      split; [| intros ->; reflexivity].
      intros Heq. pose proof (Hat t1) as H1. pose proof (Hat t2) as H2.
      rewrite Heq in H2. rewrite H1 in H2. now injection H2.
Qed.

Lemma verified_record_idempotent_witness :
  has_categories stale_ledger /\
  (exists st1,
     batch_verify.record_result stale_ledger basic_verified = inr st1 /\
     batch_verify.record_result st1 basic_verified = inr st1 /\
     batch_verify.record_results stale_ledger [basic_verified; basic_verified]
     = inr st1 /\
     forall w, batch_verify.initial_status w = inr stale_ledger ->
       batch_verify.update_status [basic_verified] w = inr (write_status st1 w) /\
       batch_verify.update_status [basic_verified] (write_status st1 w)
       = inr (write_status st1 w)).
Proof.
  assert (has_categories stale_ledger) as H by (split; vm_compute; eauto).
  split; [exact H |].
  destruct (verified_record_idempotent stale_ledger H) as (Hb & _).
  apply (Hb basic_verified 100%float); reflexivity.
Defined.

(** C8 fails on the single-model command: verifying ["Basic"] at one time
    and again one second later, on identical artifacts, succeeds both
    times and leaves a ledger that differs from the ledger after the first
    run (in the [verified_at] field of the entry). *)
Lemma verify_twice_changes_ledger :
  let once :=
    verification_status.cmd_verify marker_only "Basic" 42
      "2025-01-01T00:00:00Z" stale_world in
  let twice :=
    once ≫= verification_status.cmd_verify marker_only "Basic" 42
              "2025-01-01T00:00:01Z" in
  verified_at "Basic" once = Some (JStr "2025-01-01T00:00:00Z") /\
  verified_at "Basic" twice = Some (JStr "2025-01-01T00:00:01Z") /\
  twice <> once.
Proof.
  intros once twice.
  assert (verified_at "Basic" once = Some (JStr "2025-01-01T00:00:00Z")) as H1
    by (vm_compute; reflexivity).
  assert (verified_at "Basic" twice = Some (JStr "2025-01-01T00:00:01Z")) as H2
    by (vm_compute; reflexivity).
  split; [exact H1 |]. split; [exact H2 |].
  intros E. rewrite E, H1 in H2. discriminate.
Qed.

End ledger_batch.

Section ledger_frame.
Import Ledger Fixtures.

Implicit Types (st : ledger) (model k : string).

Lemma untouched_refl model_names st : untouched model_names st st.
Proof. split; reflexivity. Qed.

Lemma untouched_step (r : batch_verify.result) st :
  has_categories st ->
  batch_verify.well_formed_result r ->
  exists st',
    batch_verify.record_result st r = inr st' /\
    has_categories st' /\
    untouched [batch_verify.name r] st st'.
Proof.
  intros Hc Hr. pose proof Hc as [Hv Hf].
  destruct (decide (batch_verify.status r = "verified")) as [Hs | Hs].
  - destruct (Hr Hs) as [acc Ha]. eexists.
    split; [apply (record_result_verified st r acc); assumption |].
    split; [now apply record_verified_has_categories |].
    split.
    + intros k Hk1 Hk2. now apply record_verified_other_key.
    + intros k m Hm. apply record_verified_other_model.
      intros ->. apply Hm. apply list_elem_of_singleton. reflexivity.
  - destruct (decide (batch_verify.status r = "failed")) as [Hs' | Hs'].
    + eexists. split; [now apply record_result_failed |].
      split; [now apply record_failed_has_categories |].
      split.
      * intros k Hk1 Hk2. now apply record_failed_other_key.
      * intros k m Hm. apply record_failed_other_model.
        intros ->. apply Hm. apply list_elem_of_singleton. reflexivity.
    + exists st. split; [now apply record_result_other |].
      split; [exact Hc | apply untouched_refl].
Qed.

Lemma untouched_loop (results : list batch_verify.result) :
  forall st,
  has_categories st ->
  Forall batch_verify.well_formed_result results ->
  exists st',
    batch_verify.record_results st results = inr st' /\
    has_categories st' /\
    untouched (map batch_verify.name results) st st'.
Proof.
  induction results as [| r results IH]; intros st Hc Hwf.
  - exists st. split; [reflexivity |]. split; [exact Hc | apply untouched_refl].
  - apply Forall_cons in Hwf as [Hr Hwf].
    destruct (untouched_step r st Hc Hr) as (st1 & E1 & Hc1 & [K1 M1]).
    destruct (IH st1 Hc1 Hwf) as (st' & E' & Hc' & [K' M']).
    exists st'. cbn. rewrite E1. cbn. split; [exact E' |].
    split; [exact Hc' |]. split.
    + intros k Hk1 Hk2. rewrite K' by assumption. now apply K1.
    + intros k m Hm. apply not_elem_of_cons in Hm as [Hne Hm].
      rewrite M' by exact Hm. apply M1.
      intros Hin. apply list_elem_of_singleton in Hin. contradiction.
Qed.

(** Every result of [verify_model] can be recorded. *)
Lemma verify_model_well_formed (run : command -> world -> outcome)
    (m : string) (s : Z) (regenerate : bool) (w : world) :
  batch_verify.well_formed_result
    (fst (batch_verify.verify_model run m s regenerate w)).
Proof.
  unfold batch_verify.verify_model.
  destruct (batch_verify.generate_csharp run m s _) as [[] w1]; cbn;
    [| intros H; discriminate].
  destruct (batch_verify.generate_rust run m s w1) as [[] w2]; cbn;
    [| intros H; discriminate].
  destruct (batch_verify.compare m s w2) as [[is_match acc] msg]. cbn.
  intros _. eauto.
Qed.

(** C10. Starting from the persisted ledger (the empty one when there is no
    status file), provided it has its [verified] and [failed] categories,
    the batch ledger update succeeds and writes back a ledger in which the
    [skipped] mapping, every other top-level key besides [verified] and
    [failed], and the [verified] and [failed] entries of every model that
    does not occur in the results are the same as before; the artifact
    files are not touched. *)
Theorem update_status_frame (results : list batch_verify.result)
    (w : world) st :
  batch_verify.initial_status w = inr st ->
  has_categories st ->
  Forall batch_verify.well_formed_result results ->
  exists st',
    batch_verify.update_status results w = inr (write_status st' w) /\
    files (write_status st' w) = files w /\
    st' !! "skipped" = st !! "skipped" /\
    (forall k, k <> "verified" -> k <> "failed" -> st' !! k = st !! k) /\
    (forall m, m ∉ map batch_verify.name results ->
       get_category "verified" st' !! m = get_category "verified" st !! m /\
       get_category "failed" st' !! m = get_category "failed" st !! m).
Proof.
  intros Hw Hc Hwf.
  destruct (untouched_loop results st Hc Hwf) as (st' & E & _ & [K M]).
  exists st'. unfold batch_verify.update_status. rewrite Hw. cbn.
  rewrite E. cbn. split; [reflexivity |]. split; [reflexivity |].
  split; [apply K; done |]. split; [exact K |].
  intros m Hm. split; apply M; exact Hm.
Qed.

Lemma update_status_frame_witness :
  exists st',
    batch_verify.update_status [basic_verified] stale_world
    = inr (write_status st' stale_world) /\
    files (write_status st' stale_world) = files stale_world /\
    st' !! "skipped" = stale_ledger !! "skipped" /\
    (forall k, k <> "verified" -> k <> "failed" -> st' !! k = stale_ledger !! k) /\
    (forall m, m ∉ map batch_verify.name [basic_verified] ->
       get_category "verified" st' !! m
       = get_category "verified" stale_ledger !! m /\
       get_category "failed" st' !! m = get_category "failed" stale_ledger !! m).
Proof.
  apply (update_status_frame [basic_verified] stale_world stale_ledger).
  - reflexivity.
  - split; vm_compute; eauto.
  - constructor; [| constructor].
    intros _. vm_compute. eauto.
Defined.

End ledger_frame.

(** ** End-to-end runs *)

Section scenarios.
Import Fixtures.

(** Identical 3x3x1 grids: the batch run verifies the model and the ledger
    entry moves from [failed] to [verified]. *)
Example batch_run_verified :
  exists w',
    batch_verify.main both_agree verify_basic manifest
      {| files := ∅; status_file := Some (LedgerJson stale_ledger) |}
    = inr (batch_verify.Summary [basic_verified] 1 0 1, w') /\
    verified_at "Basic" (inr w') = None /\
    (match status_file w' with
     | Some (LedgerJson st) =>
         get_category "failed" st !! "Basic" = None /\
         get_category "verified" st !! "Basic"
         = Some (batch_verify.verified_entry 42 100%float) /\
         st !! "skipped" = stale_ledger !! "skipped"
     | _ => False
     end).
Proof.
  eexists. split; [vm_compute; reflexivity |].
  split; [vm_compute; reflexivity |]. vm_compute. repeat split; reflexivity.
Qed.

(** The same grids with cell 4 changed from 0 to 2 on the candidate side:
    one difference at (1,1,0), eight cells of nine matching. *)
Example one_cell_differs :
  let w := store_of basic_grid (grid [3; 3; 1] [0; 1; 2; 1; 2; 2; 2; 1; 0]) in
  (compare_grids.differences <$>
     compare_grids.compare
       (output_path batch_verify.CSHARP_DIR "Basic" 42)
       (output_path batch_verify.RUST_DIR "Basic" 42) w)
  = inr [{| compare_grids.d_index := 4; compare_grids.d_x := 1;
            compare_grids.d_y := 1; compare_grids.d_z := 0;
            compare_grids.d_csharp := 0; compare_grids.d_rust := 2 |}] /\
  batch_verify.compare "Basic" 42 w
  = (false, (100 * float_of_int 8 / float_of_int 9)%float,
     "88.89% (1 differ)") /\
  verification_status.compare_outputs "Basic" 42 w
  = inr (false, (100 * float_of_int 8 / float_of_int 9)%float,
         "1 cells differ (88.89% match)").
Proof. vm_compute. repeat split; reflexivity. Qed.

(** [--all] on a manifest of five models, two of them in the skip set:
    three models are selected. *)
Example all_skips_two :
  batch_verify.select
    {| batch_verify.args_models := [];
       batch_verify.args_all := true;
       batch_verify.args_all_2d := false;
       batch_verify.args_list_2d := false;
       batch_verify.args_list_3d := false;
       batch_verify.args_seed := 42;
       batch_verify.args_regenerate := false;
       batch_verify.args_jobs := 1 |}
    (batch_verify.get_all_models manifest)
  = batch_verify.ToVerify ["Basic"; "River"; "Apartemazements"].
Proof. vm_compute. reflexivity. Qed.

End scenarios.

(** * Further properties of the scripts *)

(** ** The cell scan *)

Section cell_scan.
Import Expected.

Lemma count_matches_cons (c r : Z) (cs rs : list Z) :
  batch_verify.count_matches (c :: cs) (r :: rs)
  = (if c =? r then 1 else 0) + batch_verify.count_matches cs rs.
Proof.
  unfold batch_verify.count_matches. cbn. destruct (c =? r); cbn; lia.
Qed.

Lemma count_matches_nil_l (rs : list Z) : batch_verify.count_matches [] rs = 0.
Proof. reflexivity. Qed.

Lemma count_matches_nil_r (cs : list Z) : batch_verify.count_matches cs [] = 0.
Proof. destruct cs; reflexivity. Qed.

Lemma count_matches_same : verification_status.count_matches = batch_verify.count_matches.
Proof. reflexivity. Qed.

Lemma count_matches_bounds (cs rs : list Z) :
  0 <= batch_verify.count_matches cs rs
  <= Z.of_nat (min (length cs) (length rs)).
Proof.
  revert rs. induction cs as [| c cs IH]; intros rs.
  - rewrite count_matches_nil_l. cbn. lia.
  - destruct rs as [| r rs]; [rewrite count_matches_nil_r; cbn; lia |].
    rewrite count_matches_cons. specialize (IH rs). cbn [length min].
    destruct (c =? r); lia.
Qed.

(** All cells match exactly when the states are equal. *)
Lemma count_matches_full (cs rs : list Z) :
  length cs = length rs ->
  batch_verify.count_matches cs rs = Z.of_nat (length cs) <-> cs = rs.
Proof.
  revert rs. induction cs as [| c cs IH]; intros rs Hlen.
  - destruct rs; [split; reflexivity | discriminate].
  - destruct rs as [| r rs]; [discriminate |].
    cbn in Hlen. injection Hlen as Hlen.
    rewrite count_matches_cons. pose proof (count_matches_bounds cs rs) as B.
    rewrite <- Hlen, Nat.min_id in B.
    destruct (Z.eqb_spec c r) as [-> | Hne]; split; intros H.
    + f_equal. apply IH; [exact Hlen |]. cbn [length] in H. lia.
    + injection H as <-. cbn [length].
      assert (batch_verify.count_matches cs cs = Z.of_nat (length cs))
        by (apply IH; reflexivity). lia.
    + cbn [length] in H. lia.
    + injection H as ? _. contradiction.
Qed.

Lemma coordinates_zero (mx my i : Z) :
  mx = 0 \/ my = 0 -> compare_grids.coordinates mx my i = inl ZeroDivisionError.
Proof.
  intros H. unfold compare_grids.coordinates.
  destruct (Z.eq_dec mx 0) as [-> | Hx]; [reflexivity |].
  destruct H as [H | ->]; [contradiction |].
  rewrite (mod_ok i mx Hx), (floordiv_ok i mx Hx). reflexivity.
Qed.

(** With non-zero extents in x and y the scan returns the number of
    matching cells and the expected difference entries. *)
Lemma scan_differing_cells (mx my : Z) :
  mx <> 0 -> my <> 0 ->
  forall (cs rs : list Z) (i matching : Z) (diffs : list compare_grids.difference),
  compare_grids.scan mx my i cs rs matching diffs
  = inr (matching + batch_verify.count_matches cs rs,
         (diffs ++ differing_cells mx my i cs rs)%list).
Proof.
  intros Hx Hy. induction cs as [| c cs IH]; intros rs i matching diffs.
  - cbn [compare_grids.scan differing_cells].
    rewrite app_nil_r, count_matches_nil_l, Z.add_0_r. reflexivity.
  - destruct rs as [| r rs].
    { cbn [compare_grids.scan differing_cells].
      rewrite app_nil_r, count_matches_nil_r, Z.add_0_r. reflexivity. }
    cbn [compare_grids.scan differing_cells]. rewrite count_matches_cons.
    destruct (c =? r).
    + rewrite IH. cbn [app]. rewrite Z.add_assoc. reflexivity.
    + rewrite (coordinates_ok mx my i Hx Hy). cbn. rewrite IH.
      rewrite <- app_assoc. reflexivity.
Qed.

(** Whatever the extents, a scan that meets no differing cell returns. *)
Lemma scan_no_difference (mx my : Z) :
  forall (cs rs : list Z) (i matching : Z) (diffs : list compare_grids.difference),
  ~ differ_somewhere cs rs ->
  compare_grids.scan mx my i cs rs matching diffs
  = inr (matching + Z.of_nat (min (length cs) (length rs)), diffs).
Proof.
  induction cs as [| c cs IH]; intros rs i matching diffs Hnd.
  - cbn. do 2 f_equal. lia.
  - destruct rs as [| r rs]; [cbn; do 2 f_equal; lia |].
    cbn [compare_grids.scan].
    destruct (Z.eqb_spec c r) as [-> | Hne].
    + rewrite IH.
      * do 2 f_equal. cbn [length min]. lia.
      * intros (k & c' & r' & Hc & Hr & Hcr). apply Hnd.
        exists (S k), c', r'. auto.
    + exfalso. apply Hnd. exists 0%nat, c, r. auto.
Qed.

(** With a zero extent in x or y, the first differing cell raises. *)
Lemma scan_zero_extent (mx my : Z) :
  mx = 0 \/ my = 0 ->
  forall (cs rs : list Z) (i matching : Z) (diffs : list compare_grids.difference),
  differ_somewhere cs rs ->
  compare_grids.scan mx my i cs rs matching diffs = inl ZeroDivisionError.
Proof.
  intros Hz. induction cs as [| c cs IH]; intros rs i matching diffs Hd.
  - destruct Hd as (k & c & r & Hc & _). rewrite lookup_nil in Hc. discriminate.
  - destruct rs as [| r rs].
    { destruct Hd as (k & c' & r' & _ & Hr & _). rewrite lookup_nil in Hr.
      discriminate. }
    cbn [compare_grids.scan].
    destruct (Z.eqb_spec c r) as [-> | Hne].
    + apply IH. destruct Hd as (k & c' & r' & Hc & Hr & Hcr).
      destruct k as [| k]; [cbn in Hc, Hr; congruence |].
      exists k, c', r'. auto.
    + rewrite (coordinates_zero mx my i Hz). reflexivity.
Qed.

Lemma differing_cells_length (mx my i : Z) (cs rs : list Z) :
  batch_verify.count_matches cs rs
  + Z.of_nat (length (differing_cells mx my i cs rs))
  = Z.of_nat (min (length cs) (length rs)).
Proof.
  revert rs i. induction cs as [| c cs IH]; intros rs i.
  - rewrite count_matches_nil_l. reflexivity.
  - destruct rs as [| r rs]; [rewrite count_matches_nil_r; reflexivity |].
    rewrite count_matches_cons. cbn [differing_cells length min].
    rewrite length_app. specialize (IH rs (i + 1)).
    destruct (c =? r); cbn [length]; lia.
Qed.

Lemma differing_cells_elem (mx my : Z) (e : compare_grids.difference) :
  forall (cs rs : list Z) (i : Z),
  e ∈ differing_cells mx my i cs rs <->
  exists (k : nat) (c r : Z),
    cs !! k = Some c /\ rs !! k = Some r /\ c <> r /\
    e = {| compare_grids.d_index := i + Z.of_nat k;
           compare_grids.d_x := (i + Z.of_nat k) mod mx;
           compare_grids.d_y := ((i + Z.of_nat k) / mx) mod my;
           compare_grids.d_z := (i + Z.of_nat k) / (mx * my);
           compare_grids.d_csharp := c;
           compare_grids.d_rust := r |}.
Proof.
  induction cs as [| c cs IH]; intros rs i.
  - cbn. split.
    + intros H. apply elem_of_nil in H. contradiction.
    + intros (k & c & r & Hc & _). rewrite lookup_nil in Hc. discriminate.
  - destruct rs as [| r rs].
    { cbn. split.
      + intros H. apply elem_of_nil in H. contradiction.
      + intros (k & c' & r' & _ & Hr & _). rewrite lookup_nil in Hr.
        discriminate. }
    cbn [differing_cells]. rewrite elem_of_app, IH. split.
    + intros [H | (k & c' & r' & Hc & Hr & Hne & ->)].
      * destruct (Z.eqb_spec c r) as [-> | Hne];
          [apply elem_of_nil in H; contradiction |].
        apply list_elem_of_singleton in H. subst e.
        exists 0%nat, c, r. cbn. rewrite Z.add_0_r. auto.
      * exists (S k), c', r'. cbn [lookup].
        replace (i + Z.of_nat (S k)) with (i + 1 + Z.of_nat k) by lia. auto.
    + intros (k & c' & r' & Hc & Hr & Hne & ->). destruct k as [| k].
      * cbn in Hc, Hr. injection Hc as <-. injection Hr as <-. left.
        destruct (Z.eqb_spec c r) as [-> | _]; [contradiction |].
        apply list_elem_of_singleton. cbn. rewrite Z.add_0_r. reflexivity.
      * right. exists k, c', r'.
        replace (i + Z.of_nat (S k)) with (i + 1 + Z.of_nat k) by lia. auto.
Qed.

Lemma differing_cells_nil (mx my i : Z) (cs rs : list Z) :
  differing_cells mx my i cs rs = [] <-> ~ differ_somewhere cs rs.
Proof.
  split.
  - intros H (k & c & r & Hc & Hr & Hne).
    assert ({| compare_grids.d_index := i + Z.of_nat k;
               compare_grids.d_x := (i + Z.of_nat k) mod mx;
               compare_grids.d_y := ((i + Z.of_nat k) / mx) mod my;
               compare_grids.d_z := (i + Z.of_nat k) / (mx * my);
               compare_grids.d_csharp := c;
               compare_grids.d_rust := r |}
            ∈ differing_cells mx my i cs rs) as Hin
      by (apply differing_cells_elem; exists k, c, r; auto).
    rewrite H in Hin. apply elem_of_nil in Hin. exact Hin.
  - intros H. destruct (differing_cells mx my i cs rs) as [| e l] eqn:E;
      [reflexivity |].
    exfalso. apply H.
    assert (e ∈ differing_cells mx my i cs rs) as Hin
      by (rewrite E; apply list_elem_of_here).
    apply differing_cells_elem in Hin as (k & c & r & Hc & Hr & Hne & _).
    exists k, c, r. auto.
Qed.

Lemma differing_cells_lower_bound (mx my : Z) :
  forall (cs rs : list Z) (i : Z),
  Forall (fun e => i <= compare_grids.d_index e) (differing_cells mx my i cs rs).
Proof.
  intros cs rs i. apply Forall_forall. intros e He.
  apply differing_cells_elem in He as (k & c & r & _ & _ & _ & ->). cbn. lia.
Qed.

Lemma differing_cells_sorted (mx my : Z) :
  forall (cs rs : list Z) (i : Z),
  StronglySorted Z.lt
    (map compare_grids.d_index (differing_cells mx my i cs rs)).
Proof.
  induction cs as [| c cs IH]; intros rs i; [constructor |].
  destruct rs as [| r rs]; [constructor |].
  cbn [differing_cells]. destruct (c =? r); cbn; [apply IH |].
  constructor; [apply IH |].
  apply Forall_map. eapply Forall_impl;
    [apply (differing_cells_lower_bound mx my cs rs (i + 1)) |].
  cbn. intros e He. lia.
Qed.

Lemma differ_somewhere_equal_length (cs rs : list Z) :
  length cs = length rs -> (~ differ_somewhere cs rs <-> cs = rs).
Proof.
  intros Hlen. split.
  - intros Hnd. apply list_eq. intros k.
    destruct (cs !! k) as [c |] eqn:Hc.
    + destruct (rs !! k) as [r |] eqn:Hr.
      * destruct (Z.eq_dec c r) as [-> | Hne]; [reflexivity |].
        exfalso. apply Hnd. exists k, c, r. auto.
      * apply lookup_lt_Some in Hc. apply lookup_ge_None in Hr. lia.
    + symmetry. apply lookup_ge_None. apply lookup_ge_None in Hc. lia.
  - intros -> (k & c & r & Hc & Hr & Hne). congruence.
Qed.

Lemma char_at_nonnegative (chars : list string) (v : Z) :
  0 <= v -> exists c, compare_grids.char_at chars v = inr c.
Proof.
  intros Hv. unfold compare_grids.char_at. cbn zeta.
  destruct (v <? Z.of_nat (length chars)); [| eauto].
  apply Z.leb_le in Hv. rewrite Hv. eauto.
Qed.

Lemma report_differences_nonnegative (csharp_chars rust_chars : list string)
    (diffs : list compare_grids.difference) :
  Forall (fun d => 0 <= compare_grids.d_csharp d /\ 0 <= compare_grids.d_rust d)
    diffs ->
  compare_grids.report_differences csharp_chars rust_chars diffs = inr tt.
Proof.
  induction 1 as [| d diffs [Hc Hr] _ IH]; [reflexivity |].
  cbn [compare_grids.report_differences].
  destruct (char_at_nonnegative csharp_chars _ Hc) as [c ->].
  destruct (char_at_nonnegative rust_chars _ Hr) as [r ->].
  exact IH.
Qed.

Lemma differing_cells_nonnegative (mx my i : Z) (cs rs : list Z) :
  Forall (fun v => 0 <= v) cs -> Forall (fun v => 0 <= v) rs ->
  Forall (fun d => 0 <= compare_grids.d_csharp d /\ 0 <= compare_grids.d_rust d)
    (differing_cells mx my i cs rs).
Proof.
  intros Hcs Hrs. apply Forall_forall. intros d Hd.
  apply differing_cells_elem in Hd as (k & c & r & Hc & Hr & _ & ->). cbn.
  split.
  - exact (proj1 (Forall_lookup _ cs) Hcs k c Hc).
  - exact (proj1 (Forall_lookup _ rs) Hrs k r Hr).
Qed.

(** The report on a result whose differing values are all non-negative. *)
Lemma print_report_nonnegative (r : compare_grids.comparison) (a b : artifact) :
  is_Some (compare_grids.is_perfect r) ->
  Forall (fun d => 0 <= compare_grids.d_csharp d /\ 0 <= compare_grids.d_rust d)
    (compare_grids.differences r) ->
  compare_grids.print_report r a b = inr tt.
Proof.
  intros [p Hp] Hd. unfold compare_grids.print_report. rewrite Hp.
  destruct p; [reflexivity |].
  destruct (negb _); [| reflexivity].
  apply report_differences_nonnegative. now apply Forall_take.
Qed.

(** [compare] on equal dimension triples with non-zero extents in x and y:
    the result of the scan, handed to the report when [verbose] is set. *)
Lemma compare_loaded_scanned (verbose : bool) (a b : artifact) (mx my mz : Z) :
  dimensions a = [mx; my; mz] -> dimensions b = [mx; my; mz] ->
  mx <> 0 -> my <> 0 ->
  exists acc,
    let result :=
      {| compare_grids.model := default "unknown" (a_model a);
         compare_grids.seed := default (-1) (a_seed a);
         compare_grids.csharp_dimensions := [mx; my; mz];
         compare_grids.rust_dimensions := [mx; my; mz];
         compare_grids.dimensions_match := true;
         compare_grids.total_cells := Z.of_nat (length (state a));
         compare_grids.matching_cells :=
           batch_verify.count_matches (state a) (state b);
         compare_grids.differences :=
           differing_cells mx my 0 (state a) (state b);
         compare_grids.accuracy := Some acc;
         compare_grids.is_perfect :=
           Some (bool_decide
                   (length (differing_cells mx my 0 (state a) (state b))
                    = 0%nat)) |} in
    compare_grids.compare_loaded verbose a b
    = (if verbose then compare_grids.print_report result a b else inr tt)
        ≫= fun _ => inr result.
Proof.
  intros Da Db Hx Hy. unfold compare_grids.compare_loaded. cbn.
  rewrite Da, Db. rewrite bool_decide_eq_true_2 by reflexivity. cbn.
  rewrite (scan_differing_cells mx my Hx Hy). cbn.
  destruct (0 <? Z.of_nat (length (state a))) eqn:Ht.
  - unfold truediv. apply Z.ltb_lt in Ht.
    destruct (Z.eqb_spec (Z.of_nat (length (state a))) 0) as [E | _]; [lia |].
    cbn. eexists. reflexivity.
  - cbn. eexists. reflexivity.
Qed.

(** The same with cell values that are palette indices (non-negative): the
    report does not raise. *)
Lemma compare_artifacts_scanned (a b : artifact) (mx my mz : Z) :
  dimensions a = [mx; my; mz] -> dimensions b = [mx; my; mz] ->
  mx <> 0 -> my <> 0 ->
  Forall (fun v => 0 <= v) (state a) -> Forall (fun v => 0 <= v) (state b) ->
  exists acc,
    compare_grids.compare_artifacts a b
    = inr {| compare_grids.model := default "unknown" (a_model a);
             compare_grids.seed := default (-1) (a_seed a);
             compare_grids.csharp_dimensions := [mx; my; mz];
             compare_grids.rust_dimensions := [mx; my; mz];
             compare_grids.dimensions_match := true;
             compare_grids.total_cells := Z.of_nat (length (state a));
             compare_grids.matching_cells :=
               batch_verify.count_matches (state a) (state b);
             compare_grids.differences :=
               differing_cells mx my 0 (state a) (state b);
             compare_grids.accuracy := Some acc;
             compare_grids.is_perfect :=
               Some (bool_decide
                       (length (differing_cells mx my 0 (state a) (state b))
                        = 0%nat)) |}.
Proof.
  intros Da Db Hx Hy Ha Hb. unfold compare_grids.compare_artifacts.
  destruct (compare_loaded_scanned true a b mx my mz Da Db Hx Hy) as [acc E].
  exists acc. rewrite E. cbn zeta.
  rewrite print_report_nonnegative; [reflexivity | cbn; eauto |].
  cbn. now apply differing_cells_nonnegative.
Qed.

(** Whatever the cell values: a result returned on such dimensions has the
    expected differences. *)
Lemma compare_artifacts_scanned_inv (a b : artifact) (mx my mz : Z)
    (r : compare_grids.comparison) :
  dimensions a = [mx; my; mz] -> dimensions b = [mx; my; mz] ->
  mx <> 0 -> my <> 0 ->
  compare_grids.compare_artifacts a b = inr r ->
  compare_grids.differences r = differing_cells mx my 0 (state a) (state b) /\
  compare_grids.is_perfect r
  = Some (bool_decide
            (length (differing_cells mx my 0 (state a) (state b)) = 0%nat)).
Proof.
  intros Da Db Hx Hy. unfold compare_grids.compare_artifacts.
  destruct (compare_loaded_scanned true a b mx my mz Da Db Hx Hy) as [acc E].
  rewrite E. cbn zeta.
  destruct (compare_grids.print_report _ a b) as [e | []]; [discriminate |].
  cbn. intros H. injection H as <-. split; reflexivity.
Qed.

End cell_scan.

(** ** The cell comparator *)

Section cell_comparator.
Import Expected Fixtures.

(** X1. On two artifacts with the same three dimensions, non-zero in x and
    y, [compare] returns a result in which every scanned cell is counted
    once: the matching cells and the difference entries add up to the
    length of the shorter state, [total_cells] is the reference length, an
    accuracy is present, and [is_perfect] says that there is no difference
    entry. *)
Theorem compare_counts_every_scanned_cell (a b : artifact) (mx my mz : Z) :
  dimensions a = [mx; my; mz] -> dimensions b = [mx; my; mz] ->
  mx <> 0 -> my <> 0 ->
  Forall (fun v => 0 <= v) (state a) -> Forall (fun v => 0 <= v) (state b) ->
  exists r,
    compare_grids.compare_artifacts a b = inr r /\
    compare_grids.dimensions_match r = true /\
    compare_grids.total_cells r = Z.of_nat (length (state a)) /\
    0 <= compare_grids.matching_cells r /\
    compare_grids.matching_cells r
    + Z.of_nat (length (compare_grids.differences r))
    = Z.of_nat (min (length (state a)) (length (state b))) /\
    is_Some (compare_grids.accuracy r) /\
    (compare_grids.is_perfect r = Some true
     <-> compare_grids.differences r = []).
Proof.
  intros Da Db Hx Hy Ha Hb.
  destruct (compare_artifacts_scanned a b mx my mz Da Db Hx Hy Ha Hb)
    as [acc E].
  eexists. split; [exact E |]. cbn.
  split; [reflexivity |]. split; [reflexivity |].
  split; [apply count_matches_bounds |].
  split; [apply differing_cells_length |].
  split; [eauto |].
  split.
  - intros H. injection H as H. apply bool_decide_eq_true in H.
    now apply length_zero_iff_nil.
  - intros ->. reflexivity.
Qed.

Lemma compare_counts_every_scanned_cell_witness :
  exists r,
    compare_grids.compare_artifacts basic_grid one_off_grid = inr r /\
    compare_grids.dimensions_match r = true /\
    compare_grids.total_cells r = Z.of_nat (length (state basic_grid)) /\
    0 <= compare_grids.matching_cells r /\
    compare_grids.matching_cells r
    + Z.of_nat (length (compare_grids.differences r))
    = Z.of_nat (min (length (state basic_grid)) (length (state one_off_grid))) /\
    is_Some (compare_grids.accuracy r) /\
    (compare_grids.is_perfect r = Some true
     <-> compare_grids.differences r = []).
Proof.
  apply (compare_counts_every_scanned_cell basic_grid one_off_grid 3 3 1);
    [reflexivity | reflexivity | lia | lia
    | cbn; repeat (constructor; [lia |]); constructor
    | cbn; repeat (constructor; [lia |]); constructor].
Defined.

(** X2. Under the same conditions the difference entries are exactly the
    cells at which the two states disagree: there is an entry for index
    [k] with values [c] and [r] if and only if both states have a cell [k],
    holding [c] and [r], and [c <> r]; the entry carries the coordinates
    decoded from [k]; and the entries are listed by increasing index. *)
Theorem differences_are_the_differing_cells (a b : artifact) (mx my mz : Z) :
  dimensions a = [mx; my; mz] -> dimensions b = [mx; my; mz] ->
  mx <> 0 -> my <> 0 ->
  Forall (fun v => 0 <= v) (state a) -> Forall (fun v => 0 <= v) (state b) ->
  exists r,
    compare_grids.compare_artifacts a b = inr r /\
    (forall e,
       e ∈ compare_grids.differences r <->
       exists (k : nat) (c r' : Z),
         state a !! k = Some c /\ state b !! k = Some r' /\ c <> r' /\
         e = {| compare_grids.d_index := Z.of_nat k;
                compare_grids.d_x := Z.of_nat k mod mx;
                compare_grids.d_y := (Z.of_nat k / mx) mod my;
                compare_grids.d_z := Z.of_nat k / (mx * my);
                compare_grids.d_csharp := c;
                compare_grids.d_rust := r' |}) /\
    StronglySorted Z.lt
      (map compare_grids.d_index (compare_grids.differences r)).
Proof.
  intros Da Db Hx Hy Ha Hb.
  destruct (compare_artifacts_scanned a b mx my mz Da Db Hx Hy Ha Hb)
    as [acc E].
  eexists. split; [exact E |]. cbn. split.
  - intros e. rewrite differing_cells_elem. cbn. reflexivity.
  - apply differing_cells_sorted.
Qed.

Lemma differences_are_the_differing_cells_witness :
  exists r,
    compare_grids.compare_artifacts basic_grid one_off_grid = inr r /\
    (forall e,
       e ∈ compare_grids.differences r <->
       exists (k : nat) (c r' : Z),
         state basic_grid !! k = Some c /\ state one_off_grid !! k = Some r' /\
         c <> r' /\
         e = {| compare_grids.d_index := Z.of_nat k;
                compare_grids.d_x := Z.of_nat k mod 3;
                compare_grids.d_y := (Z.of_nat k / 3) mod 3;
                compare_grids.d_z := Z.of_nat k / (3 * 3);
                compare_grids.d_csharp := c;
                compare_grids.d_rust := r' |}) /\
    StronglySorted Z.lt
      (map compare_grids.d_index (compare_grids.differences r)).
Proof.
  apply (differences_are_the_differing_cells basic_grid one_off_grid 3 3 1);
    [reflexivity | reflexivity | lia | lia
    | cbn; repeat (constructor; [lia |]); constructor
    | cbn; repeat (constructor; [lia |]); constructor].
Defined.

Lemma decode_in_grid (mx my mz i : Z) :
  0 < mx -> 0 < my -> 0 < mz -> 0 <= i < mx * my * mz ->
  (0 <= i mod mx < mx) /\ (0 <= (i / mx) mod my < my) /\
  (0 <= i / (mx * my) < mz) /\
  i mod mx + (i / mx) mod my * mx + i / (mx * my) * mx * my = i.
Proof.
  intros Hx Hy Hz [Hi0 Hi].
  assert (i / (mx * my) = i / mx / my) as Hdd by (rewrite Z.div_div; lia).
  split; [apply Z.mod_pos_bound; lia |].
  split; [apply Z.mod_pos_bound; lia |].
  split.
  - split; [apply Z.div_pos; nia | apply Z.div_lt_upper_bound; nia].
  - rewrite Hdd.
    pose proof (Z.div_mod i mx ltac:(lia)) as E1.
    pose proof (Z.div_mod (i / mx) my ltac:(lia)) as E2.
    nia.
Qed.

(** X3. For positive extents and a reference state of [mx*my*mz] cells,
    every difference entry of the result addresses the cell it reports: its
    coordinates lie within the extents, [x + y*mx + z*mx*my] is its index,
    and the two states hold its two (distinct) values at that index. *)
Theorem difference_entries_address_their_cell (a b : artifact) (mx my mz : Z) :
  dimensions a = [mx; my; mz] -> dimensions b = [mx; my; mz] ->
  0 < mx -> 0 < my -> 0 < mz ->
  Z.of_nat (length (state a)) = mx * my * mz ->
  Forall (fun v => 0 <= v) (state a) -> Forall (fun v => 0 <= v) (state b) ->
  exists r,
    compare_grids.compare_artifacts a b = inr r /\
    forall e, e ∈ compare_grids.differences r ->
      0 <= compare_grids.d_x e < mx /\
      0 <= compare_grids.d_y e < my /\
      0 <= compare_grids.d_z e < mz /\
      compare_grids.d_x e + compare_grids.d_y e * mx
        + compare_grids.d_z e * mx * my = compare_grids.d_index e /\
      state a !! Z.to_nat (compare_grids.d_index e)
        = Some (compare_grids.d_csharp e) /\
      state b !! Z.to_nat (compare_grids.d_index e)
        = Some (compare_grids.d_rust e) /\
      compare_grids.d_csharp e <> compare_grids.d_rust e.
Proof.
  intros Da Db Hx Hy Hz Hlen Ha Hb.
  destruct (compare_artifacts_scanned a b mx my mz Da Db) as [acc E];
    [lia | lia | assumption | assumption |].
  eexists. split; [exact E |]. cbn. intros e He.
  apply differing_cells_elem in He as (k & c & r & Hc & Hr & Hne & ->).
  cbn. rewrite !Z.add_0_l, Nat2Z.id.
  pose proof (lookup_lt_Some _ _ _ Hc) as Hk.
  destruct (decode_in_grid mx my mz (Z.of_nat k) Hx Hy Hz ltac:(lia))
    as (Bx & By & Bz & Hsum).
  auto 10.
Qed.

Lemma difference_entries_address_their_cell_witness :
  exists r,
    compare_grids.compare_artifacts basic_grid one_off_grid = inr r /\
    forall e, e ∈ compare_grids.differences r ->
      0 <= compare_grids.d_x e < 3 /\
      0 <= compare_grids.d_y e < 3 /\
      0 <= compare_grids.d_z e < 1 /\
      compare_grids.d_x e + compare_grids.d_y e * 3
        + compare_grids.d_z e * 3 * 3 = compare_grids.d_index e /\
      state basic_grid !! Z.to_nat (compare_grids.d_index e)
        = Some (compare_grids.d_csharp e) /\
      state one_off_grid !! Z.to_nat (compare_grids.d_index e)
        = Some (compare_grids.d_rust e) /\
      compare_grids.d_csharp e <> compare_grids.d_rust e.
Proof.
  apply (difference_entries_address_their_cell basic_grid one_off_grid 3 3 1);
    [reflexivity | reflexivity | lia | lia | lia | reflexivity
    | cbn; repeat (constructor; [lia |]); constructor
    | cbn; repeat (constructor; [lia |]); constructor].
Defined.

(** [compare] on equal dimension triples and states that agree on every
    cell they both have, whatever the extents. *)
Lemma compare_artifacts_no_difference (a b : artifact) (mx my mz : Z) :
  dimensions a = [mx; my; mz] -> dimensions b = [mx; my; mz] ->
  ~ differ_somewhere (state a) (state b) ->
  exists r,
    compare_grids.compare_artifacts a b = inr r /\
    compare_grids.differences r = [] /\
    compare_grids.matching_cells r
    = Z.of_nat (min (length (state a)) (length (state b))) /\
    compare_grids.total_cells r = Z.of_nat (length (state a)) /\
    compare_grids.is_perfect r = Some true.
Proof.
  intros Da Db Hnd. unfold compare_grids.compare_artifacts, compare_grids.compare_loaded. cbn.
  rewrite Da, Db. rewrite bool_decide_eq_true_2 by reflexivity. cbn.
  rewrite (scan_no_difference mx my _ _ _ _ _ Hnd). cbn.
  destruct (0 <? Z.of_nat (length (state a))) eqn:Ht.
  - unfold truediv. apply Z.ltb_lt in Ht.
    destruct (Z.eqb_spec (Z.of_nat (length (state a))) 0) as [E | _]; [lia |].
    cbn. eexists. split; [reflexivity |]. cbn. auto.
  - cbn. eexists. split; [reflexivity |]. cbn. auto.
Qed.

Lemma compare_artifacts_zero_extent (a b : artifact) (mx my mz : Z) :
  dimensions a = [mx; my; mz] -> dimensions b = [mx; my; mz] ->
  mx = 0 \/ my = 0 ->
  differ_somewhere (state a) (state b) ->
  compare_grids.compare_artifacts a b = inl ZeroDivisionError.
Proof.
  intros Da Db Hz Hd. unfold compare_grids.compare_artifacts, compare_grids.compare_loaded. cbn.
  rewrite Da, Db. rewrite bool_decide_eq_true_2 by reflexivity. cbn.
  rewrite (scan_zero_extent mx my Hz _ _ _ _ _ Hd). reflexivity.
Qed.

Lemma differ_somewhere_dec (cs rs : list Z) :
  differ_somewhere cs rs \/ ~ differ_somewhere cs rs.
Proof.
  destruct (differing_cells 1 1 0 cs rs) as [| e l] eqn:E.
  - right. now apply (differing_cells_nil 1 1 0).
  - left. assert (e ∈ differing_cells 1 1 0 cs rs) as Hin
      by (rewrite E; apply list_elem_of_here).
    apply differing_cells_elem in Hin as (k & c & r & Hc & Hr & Hne & _).
    exists k, c, r. auto.
Qed.

(** X4. On two artifacts with the same three dimensions and states of the
    same length, [compare] returns a result marked perfect if and only if
    the two states are equal; this holds for every extent, zero included
    (equal states never reach the division). *)
Theorem perfect_iff_states_equal (a b : artifact) (mx my mz : Z) :
  dimensions a = [mx; my; mz] -> dimensions b = [mx; my; mz] ->
  length (state a) = length (state b) ->
  (exists r, compare_grids.compare_artifacts a b = inr r /\
             compare_grids.is_perfect r = Some true)
  <-> state a = state b.
Proof.
  intros Da Db Hlen. split.
  - intros (r & E & Hp).
    apply differ_somewhere_equal_length; [exact Hlen |]. intros Hd.
    destruct (Z.eq_dec mx 0) as [Hx | Hx];
      [rewrite (compare_artifacts_zero_extent a b mx my mz) in E by auto;
       discriminate |].
    destruct (Z.eq_dec my 0) as [Hy | Hy];
      [rewrite (compare_artifacts_zero_extent a b mx my mz) in E by auto;
       discriminate |].
    destruct (compare_artifacts_scanned_inv a b mx my mz r Da Db Hx Hy E)
      as [_ Hp'].
    rewrite Hp' in Hp. injection Hp as Hp.
    apply bool_decide_eq_true in Hp. apply length_zero_iff_nil in Hp.
    now apply differing_cells_nil in Hp.
  - intros Heq.
    destruct (compare_artifacts_no_difference a b mx my mz Da Db)
      as (r & E & _ & _ & _ & Hp).
    + apply differ_somewhere_equal_length; assumption.
    + eauto.
Qed.

Lemma perfect_iff_states_equal_witness :
  (exists r, compare_grids.compare_artifacts basic_grid basic_grid = inr r /\
             compare_grids.is_perfect r = Some true)
  <-> state basic_grid = state basic_grid.
Proof.
  apply (perfect_iff_states_equal basic_grid basic_grid 3 3 1); reflexivity.
Defined.

(** The report of the default [verbose=True] indexes the character lists
    with the differing values: a value below [-len(characters)] raises. *)
Example compare_report_index_error :
  compare_grids.compare_artifacts (grid [1; 1; 1] [-5]) (grid [1; 1; 1] [0])
  = inl IndexError /\
  (compare_grids.differences <$>
     compare_grids.compare_loaded false (grid [1; 1; 1] [-5]) (grid [1; 1; 1] [0]))
  = inr [{| compare_grids.d_index := 0; compare_grids.d_x := 0;
            compare_grids.d_y := 0; compare_grids.d_z := 0;
            compare_grids.d_csharp := -5; compare_grids.d_rust := 0 |}].
Proof. vm_compute. split; reflexivity. Qed.

(** X5. On states whose cell values are non-negative, [compare] raises in
    exactly two situations, both with equal dimensions: the dimension list
    is not a triple ([ValueError] from the unpacking), or it is a triple
    with a zero extent in x or y and the two states disagree at some cell
    they both have ([ZeroDivisionError] from decoding the first such
    cell).  In both situations it does raise. *)
Theorem compare_raises_exactly_when (a b : artifact) :
  Forall (fun v => 0 <= v) (state a) -> Forall (fun v => 0 <= v) (state b) ->
  (forall e, compare_grids.compare_artifacts a b = inl e ->
     dimensions a = dimensions b /\
     (((forall mx my mz, dimensions a <> [mx; my; mz]) /\
       exists msg, e = ValueError msg) \/
      (exists mx my mz,
         dimensions a = [mx; my; mz] /\ (mx = 0 \/ my = 0) /\
         differ_somewhere (state a) (state b) /\ e = ZeroDivisionError))) /\
  (dimensions a = dimensions b ->
   (forall mx my mz, dimensions a <> [mx; my; mz]) ->
   exists msg, compare_grids.compare_artifacts a b = inl (ValueError msg)) /\
  (forall mx my mz,
     dimensions a = [mx; my; mz] -> dimensions b = [mx; my; mz] ->
     mx = 0 \/ my = 0 ->
     differ_somewhere (state a) (state b) ->
     compare_grids.compare_artifacts a b = inl ZeroDivisionError).
Proof.
  intros Ha Hb. split; [| split].
  - intros e E.
    destruct (decide (dimensions a = dimensions b)) as [Hd | Hd].
    2:{ destruct (compare_grids_dimension_mismatch a b Hd) as (r & E' & _).
        rewrite E' in E. discriminate. }
    split; [exact Hd |].
    destruct (dimensions a) as [| mx [| my [| mz [| ? ?]]]] eqn:Da.
    1-3, 5:
      left; split; [intros ? ? ?; discriminate |];
      unfold compare_grids.compare_artifacts, compare_grids.compare_loaded in E; cbn in E;
      rewrite Da, <- Hd in E;
      rewrite bool_decide_eq_true_2 in E by reflexivity;
      cbn in E; injection E as <-; eauto.
    right. exists mx, my, mz. split; [reflexivity |].
    symmetry in Hd.
    destruct (differ_somewhere_dec (state a) (state b)) as [Hs | Hs].
    2:{ destruct (compare_artifacts_no_difference a b mx my mz Da Hd Hs)
          as (r & E' & _).
        rewrite E' in E. discriminate. }
    destruct (Z.eq_dec mx 0) as [Hx | Hx].
    { rewrite (compare_artifacts_zero_extent a b mx my mz) in E by auto.
      injection E as <-. auto. }
    destruct (Z.eq_dec my 0) as [Hy | Hy].
    { rewrite (compare_artifacts_zero_extent a b mx my mz) in E by auto.
      injection E as <-. auto. }
    destruct (compare_artifacts_scanned a b mx my mz Da Hd Hx Hy Ha Hb)
      as [acc E'].
    rewrite E' in E. discriminate.
  - intros Hd Hn. unfold compare_grids.compare_artifacts, compare_grids.compare_loaded. cbn.
    rewrite bool_decide_eq_true_2 by exact Hd. cbn.
    destruct (dimensions a) as [| mx [| my [| mz [| ? ?]]]] eqn:Da;
      cbn; eauto.
    exfalso. apply (Hn mx my mz). reflexivity.
  - intros mx my mz Da Db Hz Hs.
    now apply (compare_artifacts_zero_extent a b mx my mz).
Qed.

Lemma compare_raises_exactly_when_witness :
  (exists msg,
     compare_grids.compare_artifacts (grid [4; 4] [0]) (grid [4; 4] [0])
     = inl (ValueError msg)) /\
  compare_grids.compare_artifacts (grid [0; 1; 1] [0]) (grid [0; 1; 1] [1])
  = inl ZeroDivisionError.
Proof.
  split.
  - apply (compare_raises_exactly_when (grid [4; 4] [0]) (grid [4; 4] [0]));
      [cbn; repeat (constructor; [lia |]); constructor
      | cbn; repeat (constructor; [lia |]); constructor
      | reflexivity | intros mx my mz; discriminate].
  - apply (compare_raises_exactly_when
             (grid [0; 1; 1] [0]) (grid [0; 1; 1] [1]) ) with (mx := 0) (my := 1) (mz := 1);
      [cbn; repeat (constructor; [lia |]); constructor
      | cbn; repeat (constructor; [lia |]); constructor
      | reflexivity | reflexivity | left; reflexivity |].
    exists 0%nat, 0, 1. repeat split. discriminate.
Defined.

End cell_comparator.

(** ** The file comparators *)

Section file_comparators.
Import Fixtures.

Lemma batch_compare_loaded (m : string) (s : Z) (w : world) (a b : artifact) :
  files w !! output_path batch_verify.CSHARP_DIR m s = Some (Json a) ->
  files w !! output_path batch_verify.RUST_DIR m s = Some (Json b) ->
  dimensions a = dimensions b ->
  length (state a) = length (state b) ->
  let matches := batch_verify.count_matches (state a) (state b) in
  let len := Z.of_nat (length (state a)) in
  batch_verify.compare m s w
  = if matches =? len then (true, 100%float, "MATCH")
    else (false,
          match state a with
          | [] => 100%float
          | _ => (100 * float_of_int matches / float_of_int len)%float
          end,
          format_2f
            match state a with
            | [] => 100%float
            | _ => (100 * float_of_int matches / float_of_int len)%float
            end
          ++ "% (" ++ str (len - matches) ++ " differ)").
Proof.
  intros Ha Hb Hd Hl matches len. unfold batch_verify.compare.
  rewrite Ha, Hb. rewrite bool_decide_eq_true_2 by exact Hd. cbn [negb].
  rewrite <- Hl, Z.eqb_refl. cbn [negb]. reflexivity.
Qed.

Lemma batch_compare_identical (m : string) (s : Z) (w : world) (a b : artifact) :
  files w !! output_path batch_verify.CSHARP_DIR m s = Some (Json a) ->
  files w !! output_path batch_verify.RUST_DIR m s = Some (Json b) ->
  dimensions a = dimensions b -> state a = state b ->
  batch_verify.compare m s w = (true, 100%float, "MATCH").
Proof.
  intros Ha Hb Hd Hs.
  rewrite (batch_compare_loaded m s w a b Ha Hb Hd) by now rewrite Hs.
  cbn zeta. rewrite <- Hs.
  assert (batch_verify.count_matches (state a) (state a)
          = Z.of_nat (length (state a))) as ->
    by now apply count_matches_full.
  now rewrite Z.eqb_refl.
Qed.

Lemma batch_compare_match_inv (m : string) (s : Z) (w : world) :
  fst (fst (batch_verify.compare m s w)) = true ->
  exists a b,
    files w !! output_path batch_verify.CSHARP_DIR m s = Some (Json a) /\
    files w !! output_path batch_verify.RUST_DIR m s = Some (Json b) /\
    dimensions a = dimensions b /\ state a = state b.
Proof.
  unfold batch_verify.compare.
  destruct (files w !! output_path batch_verify.CSHARP_DIR m s)
    as [[a | ea] |] eqn:Ha;
    [| destruct (files w !! output_path batch_verify.RUST_DIR m s);
       cbn; discriminate
     | cbn; discriminate].
  destruct (files w !! output_path batch_verify.RUST_DIR m s)
    as [[b | eb] |] eqn:Hb; [| cbn; discriminate | cbn; discriminate].
  case_bool_decide as Hd; cbn [negb]; [| cbn; discriminate].
  destruct (Z.eqb_spec (Z.of_nat (length (state a)))
              (Z.of_nat (length (state b)))) as [Hl | Hl];
    cbn [negb]; [| cbn; discriminate].
  destruct (Z.eqb_spec (batch_verify.count_matches (state a) (state b))
              (Z.of_nat (length (state a)))) as [Hm | Hm];
    [| cbn; discriminate].
  intros _. exists a, b. repeat split; try assumption.
  apply count_matches_full; [lia | exact Hm].
Qed.

(** X6. The batch comparator reports a match exactly when both artifact
    files exist and parse, their dimensions are equal and their states are
    equal; and a match is always reported as [(True, 100.0, "MATCH")]. *)
Theorem batch_compare_match_iff_identical (m : string) (s : Z) (w : world) :
  (fst (fst (batch_verify.compare m s w)) = true <->
   exists a b,
     files w !! output_path batch_verify.CSHARP_DIR m s = Some (Json a) /\
     files w !! output_path batch_verify.RUST_DIR m s = Some (Json b) /\
     dimensions a = dimensions b /\ state a = state b) /\
  (fst (fst (batch_verify.compare m s w)) = true ->
   batch_verify.compare m s w = (true, 100%float, "MATCH")).
Proof.
  split; [split |].
  - apply batch_compare_match_inv.
  - intros (a & b & Ha & Hb & Hd & Hs).
    now rewrite (batch_compare_identical m s w a b Ha Hb Hd Hs).
  - intros H. destruct (batch_compare_match_inv m s w H)
      as (a & b & Ha & Hb & Hd & Hs).
    exact (batch_compare_identical m s w a b Ha Hb Hd Hs).
Qed.

Lemma batch_compare_match_iff_identical_witness :
  batch_verify.compare "Basic" 42 (store_of basic_grid basic_grid)
  = (true, 100%float, "MATCH").
Proof.
  apply (batch_compare_match_iff_identical "Basic" 42
           (store_of basic_grid basic_grid)).
  apply (batch_compare_match_iff_identical "Basic" 42
           (store_of basic_grid basic_grid)).
  exists basic_grid, basic_grid. repeat split; reflexivity.
Defined.

(** X7. When both artifact files parse and the reference state is not
    empty, the batch comparator and the comparator of the single-model
    command return the same verdict and the same accuracy (their messages
    differ). *)
Theorem comparators_agree_on_nonempty_states (m : string) (s : Z) (w : world)
    (a b : artifact) :
  files w !! output_path batch_verify.CSHARP_DIR m s = Some (Json a) ->
  files w !! output_path batch_verify.RUST_DIR m s = Some (Json b) ->
  state a <> [] ->
  exists (is_match : bool) (accuracy : float) (message details : string),
    batch_verify.compare m s w = (is_match, accuracy, message) /\
    verification_status.compare_outputs m s w
    = inr (is_match, accuracy, details).
Proof.
  intros Ha Hb Hne.
  unfold verification_status.compare_outputs, batch_verify.compare.
  change verification_status.VERIFICATION_DIR with batch_verify.CSHARP_DIR.
  change verification_status.RUST_VERIFICATION_DIR with batch_verify.RUST_DIR.
  rewrite (path_exists_true _ _ _ Ha), (path_exists_true _ _ _ Hb).
  unfold compare_grids.load_json. rewrite Ha, Hb. cbn.
  case_bool_decide as Hd; cbn; [| eauto 6].
  destruct (Z.of_nat (length (state a)) =? Z.of_nat (length (state b)));
    cbn; [| eauto 6].
  rewrite count_matches_same. unfold truediv.
  destruct (Z.eqb_spec (Z.of_nat (length (state a))) 0) as [E | _].
  { destruct (state a); [contradiction | discriminate]. }
  cbn.
  destruct (batch_verify.count_matches (state a) (state b)
            =? Z.of_nat (length (state a))); [eauto 6 |].
  destruct (state a); [contradiction |]. eauto 6.
Qed.

Lemma comparators_agree_on_nonempty_states_witness :
  exists (is_match : bool) (accuracy : float) (message details : string),
    batch_verify.compare "Basic" 42 (store_of basic_grid one_off_grid)
    = (is_match, accuracy, message) /\
    verification_status.compare_outputs "Basic" 42
      (store_of basic_grid one_off_grid)
    = inr (is_match, accuracy, details).
Proof.
  apply (comparators_agree_on_nonempty_states "Basic" 42
           (store_of basic_grid one_off_grid) basic_grid one_off_grid);
    [reflexivity | reflexivity | discriminate].
Defined.

End file_comparators.

(** ** The model catalog *)

Section catalog.
Import Fixtures.

Lemma add_model_eq (seen : gset string) (models : list batch_verify.model_info)
    (e : batch_verify.model_elem) :
  batch_verify.add_model (seen, models) e
  = match batch_verify.x_name e with
    | Some name =>
        if negb (String.eqb name "") && negb (bool_decide (name ∈ seen)) then
          (seen ∪ {[ name ]},
           (models ++
            [{| batch_verify.m_name := name;
                batch_verify.is_3d :=
                  (default 2 (batch_verify.x_d e) =? 3)
                  || (1 <? default
                             (if default 2 (batch_verify.x_d e) =? 2 then 1
                              else default 16 (batch_verify.x_size e))
                             (batch_verify.x_height e)) |}])%list)
        else (seen, models)
    | None => (seen, models)
    end.
Proof. reflexivity. Qed.

(** What the loop of [get_all_models] keeps true of its two variables. *)
Lemma add_model_invariant (root : list batch_verify.model_elem) :
  forall (seen : gset string) (models : list batch_verify.model_info),
  (forall n, n ∈ seen <-> n ∈ map batch_verify.m_name models) ->
  NoDup (map batch_verify.m_name models) ->
  let result := fold_left batch_verify.add_model root (seen, models) in
  (forall n, n ∈ fst result <-> n ∈ map batch_verify.m_name (snd result)) /\
  NoDup (map batch_verify.m_name (snd result)) /\
  models `prefix_of` snd result /\
  (forall n, n ∈ map batch_verify.m_name (snd result) <->
     n ∈ map batch_verify.m_name models \/
     (n <> "" /\ exists e, e ∈ root /\ batch_verify.x_name e = Some n)).
Proof.
  induction root as [| e root IH]; intros seen models Hseen Hnd.
  - cbn. split; [exact Hseen |]. split; [exact Hnd |]. split; [reflexivity |].
    intros n. split; [auto |].
    intros [H | (_ & e & He & _)]; [exact H |].
    apply elem_of_nil in He. contradiction.
  - cbn [fold_left].
    assert (forall n, (exists e', e' ∈ e :: root /\ batch_verify.x_name e' = Some n)
              <-> batch_verify.x_name e = Some n \/
                  exists e', e' ∈ root /\ batch_verify.x_name e' = Some n) as Hex.
    { intros n. split.
      - intros (e' & He' & Hn). apply elem_of_cons in He' as [-> | He'];
          [left; exact Hn | right; eauto].
      - intros [Hn | (e' & He' & Hn)];
          [exists e; split; [apply list_elem_of_here | exact Hn]
          | exists e'; split; [apply list_elem_of_further; exact He' | exact Hn]]. }
    rewrite add_model_eq.
    destruct (batch_verify.x_name e) as [name |] eqn:Hname.
    2:{ destruct (IH seen models Hseen Hnd) as (I1 & I2 & I3 & I4).
        split; [exact I1 |]. split; [exact I2 |]. split; [exact I3 |].
        intros n. rewrite I4, Hex. split; [tauto |].
        intros [H | (Hne & [H | H])]; [tauto | discriminate | tauto]. }
    destruct (String.eqb_spec name "") as [-> | Hne]; cbn [negb andb].
    { destruct (IH seen models Hseen Hnd) as (I1 & I2 & I3 & I4).
      split; [exact I1 |]. split; [exact I2 |]. split; [exact I3 |].
      intros n. rewrite I4, Hex. split; [tauto |].
      intros [H | (Hn & [H | H])]; [tauto | congruence | tauto]. }
    case_bool_decide as Hin; cbn [negb].
    { destruct (IH seen models Hseen Hnd) as (I1 & I2 & I3 & I4).
      split; [exact I1 |]. split; [exact I2 |]. split; [exact I3 |].
      intros n. rewrite I4, Hex. split; [tauto |].
      intros [H | (Hn & [H | H])]; [tauto | | tauto].
      injection H as H. subst. left. now apply Hseen. }
    set (info := {| batch_verify.m_name := name; batch_verify.is_3d := _ |}).
    destruct (IH (seen ∪ {[name]}) (models ++ [info])%list)
      as (I1 & I2 & I3 & I4).
    + intros n. rewrite map_app, elem_of_app, elem_of_union, Hseen. cbn.
      rewrite elem_of_singleton, list_elem_of_singleton. reflexivity.
    + rewrite map_app. cbn. apply NoDup_app. split; [exact Hnd |].
      split; [| apply NoDup_singleton].
      intros n Hn Hn'. apply list_elem_of_singleton in Hn'. subst n.
      apply Hin. now apply Hseen.
    + split; [exact I1 |]. split; [exact I2 |].
      split; [etrans; [apply prefix_app_r; reflexivity | exact I3] |].
      intros n. rewrite I4, Hex, map_app, elem_of_app. cbn.
      rewrite list_elem_of_singleton. split.
      * intros [[H | ->] | H]; [tauto | | tauto].
        right. split; [exact Hne | left; reflexivity].
      * intros [H | (Hn & [H | H])]; [tauto | | tauto].
        injection H as ->. tauto.
Qed.

Lemma get_all_models_invariant (root : list batch_verify.model_elem) :
  let result := fold_left batch_verify.add_model root (∅, []) in
  (forall n, n ∈ fst result <-> n ∈ map batch_verify.m_name (snd result)) /\
  NoDup (map batch_verify.m_name (snd result)) /\
  (forall n, n ∈ map batch_verify.m_name (snd result) <->
     n <> "" /\ exists e, e ∈ root /\ batch_verify.x_name e = Some n).
Proof.
  destruct (add_model_invariant root ∅ []) as (I1 & I2 & _ & I4).
  - intros n. cbn. split; intros H; [set_solver | apply elem_of_nil in H; contradiction].
  - constructor.
  - split; [exact I1 |]. split; [exact I2 |].
    intros n. rewrite I4. cbn. split; [| tauto].
    intros [H | H]; [apply elem_of_nil in H; contradiction | exact H].
Qed.

Lemma catalog_names_unique (root : list batch_verify.model_elem) :
  NoDup (map batch_verify.m_name (batch_verify.get_all_models root)).
Proof. now destruct (get_all_models_invariant root) as (_ & I2 & _). Qed.

(** X8. The catalog of [get_all_models] lists each model name once, and
    lists exactly the non-empty names that some [<model>] element of the
    manifest carries. *)
Theorem catalog_names_distinct_and_complete (root : list batch_verify.model_elem) :
  NoDup (map batch_verify.m_name (batch_verify.get_all_models root)) /\
  forall n,
    n ∈ map batch_verify.m_name (batch_verify.get_all_models root) <->
    n <> "" /\ exists e, e ∈ root /\ batch_verify.x_name e = Some n.
Proof.
  destruct (get_all_models_invariant root) as (_ & I2 & I3).
  split; [exact I2 | exact I3].
Qed.

Lemma get_all_models_snoc (root : list batch_verify.model_elem)
    (e : batch_verify.model_elem) :
  batch_verify.get_all_models (root ++ [e])%list
  = match batch_verify.x_name e with
    | Some name =>
        if negb (String.eqb name "")
           && negb (bool_decide
                      (name ∈ map batch_verify.m_name
                                (batch_verify.get_all_models root)))
        then
          (batch_verify.get_all_models root ++
           [{| batch_verify.m_name := name;
               batch_verify.is_3d :=
                 (default 2 (batch_verify.x_d e) =? 3)
                 || (1 <? default
                            (if default 2 (batch_verify.x_d e) =? 2 then 1
                             else default 16 (batch_verify.x_size e))
                            (batch_verify.x_height e)) |}])%list
        else batch_verify.get_all_models root
    | None => batch_verify.get_all_models root
    end.
Proof.
  unfold batch_verify.get_all_models. rewrite fold_left_app. cbn [fold_left].
  destruct (get_all_models_invariant root) as (I1 & _).
  destruct (fold_left batch_verify.add_model root (∅, [])) as [seen models].
  cbn [fst snd] in *. rewrite add_model_eq.
  destruct (batch_verify.x_name e) as [name |]; [| reflexivity].
  rewrite (bool_decide_ext _ _ (I1 name)).
  destruct (negb (String.eqb name "") && negb (bool_decide _)); reflexivity.
Qed.

(** X9. In the catalog the first occurrence of a name wins: appending
    further elements to the manifest only appends to the catalog; an
    element whose name is missing, empty or already listed changes nothing;
    an element with a new name adds one entry, which is 3D exactly when its
    declared dimension is 3 or its height (default 1 for dimension 2, the
    grid size otherwise; dimension 2 and size 16 by default) exceeds 1. *)
Theorem catalog_first_occurrence_wins (root : list batch_verify.model_elem) :
  (forall more,
     batch_verify.get_all_models root
     `prefix_of` batch_verify.get_all_models (root ++ more)%list) /\
  (forall e,
     (batch_verify.x_name e = None \/ batch_verify.x_name e = Some "" \/
      exists n, batch_verify.x_name e = Some n /\
                n ∈ map batch_verify.m_name (batch_verify.get_all_models root)) ->
     batch_verify.get_all_models (root ++ [e])%list
     = batch_verify.get_all_models root) /\
  (forall e n,
     batch_verify.x_name e = Some n -> n <> "" ->
     n ∉ map batch_verify.m_name (batch_verify.get_all_models root) ->
     let d := default 2 (batch_verify.x_d e) in
     let size := default 16 (batch_verify.x_size e) in
     let height :=
       default (if d =? 2 then 1 else size) (batch_verify.x_height e) in
     batch_verify.get_all_models (root ++ [e])%list
     = (batch_verify.get_all_models root ++
        [{| batch_verify.m_name := n;
            batch_verify.is_3d := (d =? 3) || (1 <? height) |}])%list).
Proof.
  split; [| split].
  - intros more. unfold batch_verify.get_all_models. rewrite fold_left_app.
    destruct (get_all_models_invariant root) as (I1 & I2 & _).
    destruct (fold_left batch_verify.add_model root (∅, [])) as [seen models].
    cbn [fst snd] in *.
    now destruct (add_model_invariant more seen models I1 I2) as (_ & _ & I3 & _).
  - intros e H. rewrite get_all_models_snoc.
    destruct H as [-> | [-> | (n & -> & Hin)]]; [reflexivity | reflexivity |].
    rewrite (bool_decide_eq_true_2 _ Hin). cbn.
    now rewrite andb_false_r.
  - intros e n Hn Hne Hnin d size height. rewrite get_all_models_snoc, Hn.
    rewrite (bool_decide_eq_false_2 _ Hnin).
    apply String.eqb_neq in Hne. rewrite Hne. reflexivity.
Qed.

Lemma catalog_first_occurrence_wins_witness :
  batch_verify.get_all_models (manifest ++ [model_3d "Basic"])%list
  = batch_verify.get_all_models manifest /\
  batch_verify.get_all_models (manifest ++ [model_3d "Growth"])%list
  = (batch_verify.get_all_models manifest ++
     [{| batch_verify.m_name := "Growth"; batch_verify.is_3d := true |}])%list.
Proof.
  destruct (catalog_first_occurrence_wins manifest) as (_ & Hdup & Hnew).
  split.
  - apply Hdup.
    right. right. exists "Basic". split; [reflexivity |].
    vm_compute. apply list_elem_of_here.
  - apply (Hnew (model_3d "Growth") "Growth");
      [reflexivity | discriminate |].
    vm_compute. intros H.
    repeat (apply elem_of_cons in H as [H | H]; [discriminate |]).
    apply elem_of_nil in H. exact H.
Defined.

(** X10. With [--all] (resp. [--all-2d] without [--all]) and no listing
    flag, the selected names are distinct and are exactly the catalog names
    outside the skip set (resp. those of them that are 2D): a model in the
    skip set is never selected by these two modes. *)
Theorem broad_selection_respects_skip_set (a : batch_verify.args)
    (root : list batch_verify.model_elem) :
  batch_verify.args_list_2d a = false ->
  batch_verify.args_list_3d a = false ->
  batch_verify.args_all a = true \/ batch_verify.args_all_2d a = true ->
  exists to_verify,
    batch_verify.select a (batch_verify.get_all_models root)
    = batch_verify.ToVerify to_verify /\
    NoDup to_verify /\
    forall n,
      n ∈ to_verify <->
      (n ∉ batch_verify.SKIP_MODELS) /\
      exists m, m ∈ batch_verify.get_all_models root /\
                batch_verify.m_name m = n /\
                (batch_verify.args_all a = false -> batch_verify.is_3d m = false).
Proof.
  intros L2 L3 Hmode.
  pose proof (catalog_names_unique root) as Hnd.
  assert (forall (f : batch_verify.model_info -> bool),
            NoDup (map batch_verify.m_name
                     (List.filter f (batch_verify.get_all_models root)))) as Hf.
  { intros f. revert Hnd.
    induction (batch_verify.get_all_models root) as [| m l IH]; cbn;
      [constructor |].
    intros Hnd. apply NoDup_cons in Hnd as [Hm Hnd].
    destruct (f m); cbn; [| now apply IH].
    apply NoDup_cons. split; [| now apply IH].
    intros H. apply Hm. apply list_elem_of_fmap in H as (m' & -> & Hin).
    apply list_elem_of_fmap. exists m'. split; [reflexivity |].
    apply list_elem_of_In in Hin. apply filter_In in Hin as [Hin _].
    now apply list_elem_of_In. }
  assert (forall (f : batch_verify.model_info -> bool) n,
            n ∈ map batch_verify.m_name
                  (List.filter f (batch_verify.get_all_models root)) <->
            exists m, m ∈ batch_verify.get_all_models root /\
                      batch_verify.m_name m = n /\ f m = true) as Hmem.
  { intros f n. rewrite list_elem_of_fmap. split.
    - intros (m & -> & Hin). apply list_elem_of_In, filter_In in Hin as [Hin Hfm].
      exists m. split; [now apply list_elem_of_In | auto].
    - intros (m & Hin & <- & Hfm). exists m. split; [reflexivity |].
      apply list_elem_of_In, filter_In. split; [now apply list_elem_of_In | exact Hfm]. }
  assert (forall m, batch_verify.not_skipped m = true
                    <-> batch_verify.m_name m ∉ batch_verify.SKIP_MODELS) as Hskip.
  { intros m. unfold batch_verify.not_skipped.
    rewrite negb_true_iff, bool_decide_eq_false. reflexivity. }
  unfold batch_verify.select. rewrite L2, L3.
  destruct (batch_verify.args_all a) eqn:Hall.
  - eexists. split; [reflexivity |]. split; [apply Hf |].
    intros n. rewrite Hmem. split.
    + intros (m & Hin & <- & Hs). split; [now apply Hskip |].
      exists m. split; [exact Hin |]. split; [reflexivity | discriminate].
    + intros (Hs & m & Hin & <- & _). exists m.
      split; [exact Hin |]. split; [reflexivity | now apply Hskip].
  - destruct Hmode as [Hmode | Hmode]; [discriminate |]. rewrite Hmode.
    eexists. split; [reflexivity |]. split; [apply Hf |].
    intros n. rewrite Hmem. split.
    + intros (m & Hin & <- & Hs). apply andb_true_iff in Hs as [H3 Hs].
      split; [now apply Hskip |].
      exists m. split; [exact Hin |]. split; [reflexivity |].
      intros _. now apply negb_true_iff.
    + intros (Hs & m & Hin & <- & H3). exists m.
      split; [exact Hin |]. split; [reflexivity |].
      apply andb_true_iff. split; [apply negb_true_iff; now apply H3 |].
      now apply Hskip.
Qed.

Lemma broad_selection_respects_skip_set_witness :
  exists to_verify,
    batch_verify.select all_2d_and_names (batch_verify.get_all_models manifest)
    = batch_verify.ToVerify to_verify /\
    NoDup to_verify /\
    forall n,
      n ∈ to_verify <->
      (n ∉ batch_verify.SKIP_MODELS) /\
      exists m, m ∈ batch_verify.get_all_models manifest /\
                batch_verify.m_name m = n /\
                (batch_verify.args_all all_2d_and_names = false ->
                 batch_verify.is_3d m = false).
Proof.
  apply (broad_selection_respects_skip_set all_2d_and_names manifest);
    [reflexivity | reflexivity | right; reflexivity].
Defined.

End catalog.

(** ** Per-model verification and the batch loop *)

Section batch_run.
Import Fixtures.

Lemma output_paths_differ (m : string) (s : Z) :
  output_path batch_verify.CSHARP_DIR m s <> output_path batch_verify.RUST_DIR m s.
Proof. unfold output_path. cbn. discriminate. Qed.

Lemma unlink_if_exists (path : string) (w : world) :
  (if path_exists path w then unlink path w else w) = unlink path w.
Proof.
  destruct (path_exists path w) eqn:E; [reflexivity |].
  unfold path_exists in E. apply bool_decide_eq_false in E.
  destruct w as [fs st]. unfold unlink. cbn in *. f_equal.
  symmetry. apply delete_id.
  destruct (fs !! path) eqn:E'; [exfalso; apply E; eauto | reflexivity].
Qed.

Lemma remove_outputs_unlinks (m : string) (s : Z) (w : world) :
  batch_verify.remove_outputs m s w
  = unlink (output_path batch_verify.RUST_DIR m s)
      (unlink (output_path batch_verify.CSHARP_DIR m s) w).
Proof.
  unfold batch_verify.remove_outputs. cbn zeta.
  now rewrite !unlink_if_exists.
Qed.

(** X11. When both artifacts are cached and regeneration is not asked for,
    [verify_model] runs no engine: for every engine it returns the verdict
    of the comparison of the cached files, with status [verified] or
    [failed], and leaves the file system as it was. *)
Theorem verify_model_uses_cached_artifacts
    (run : command -> world -> outcome) (m : string) (s : Z) (w : world) :
  path_exists (output_path batch_verify.CSHARP_DIR m s) w = true ->
  path_exists (output_path batch_verify.RUST_DIR m s) w = true ->
  exists (is_match : bool) (acc : float) (msg : string),
    batch_verify.compare m s w = (is_match, acc, msg) /\
    batch_verify.verify_model run m s false w
    = ({| batch_verify.name := m; batch_verify.seed := s;
          batch_verify.status := if is_match then "verified" else "failed";
          batch_verify.accuracy := Some acc;
          batch_verify.message := msg |}, w).
Proof.
  intros Hc Hr. unfold batch_verify.verify_model.
  rewrite (generate_csharp_cached run m s w Hc). cbn.
  rewrite (generate_rust_cached run m s w Hr). cbn.
  destruct (batch_verify.compare m s w) as [[is_match acc] msg]. eauto.
Qed.

Lemma verify_model_uses_cached_artifacts_witness :
  exists (is_match : bool) (acc : float) (msg : string),
    batch_verify.compare "Basic" 42 (store_of basic_grid one_off_grid)
    = (is_match, acc, msg) /\
    batch_verify.verify_model candidate_times_out "Basic" 42 false
      (store_of basic_grid one_off_grid)
    = ({| batch_verify.name := "Basic"; batch_verify.seed := 42;
          batch_verify.status := if is_match then "verified" else "failed";
          batch_verify.accuracy := Some acc;
          batch_verify.message := msg |}, store_of basic_grid one_off_grid).
Proof.
  apply (verify_model_uses_cached_artifacts candidate_times_out "Basic" 42
           (store_of basic_grid one_off_grid)); reflexivity.
Defined.

(** X12. The regeneration step removes the two artifacts of the model and
    seed and nothing else: afterwards neither file exists, every other
    file and the status file are as before, and running the step again
    changes nothing. *)
Theorem remove_outputs_removes_only_the_two_artifacts (m : string) (s : Z)
    (w : world) :
  let w' := batch_verify.remove_outputs m s w in
  path_exists (output_path batch_verify.CSHARP_DIR m s) w' = false /\
  path_exists (output_path batch_verify.RUST_DIR m s) w' = false /\
  (forall p,
     p <> output_path batch_verify.CSHARP_DIR m s ->
     p <> output_path batch_verify.RUST_DIR m s ->
     files w' !! p = files w !! p) /\
  status_file w' = status_file w /\
  batch_verify.remove_outputs m s w' = w'.
Proof.
  cbn zeta. rewrite !remove_outputs_unlinks. unfold unlink. cbn.
  pose proof (output_paths_differ m s) as Hne.
  split; [| split; [| split; [| split]]].
  - apply path_exists_false. cbn.
    rewrite lookup_delete_ne by congruence. apply lookup_delete_eq.
  - apply path_exists_false. cbn. apply lookup_delete_eq.
  - intros p Hc Hr. now rewrite !lookup_delete_ne by congruence.
  - reflexivity.
  - f_equal. apply map_eq. intros p.
    destruct (decide (p = output_path batch_verify.RUST_DIR m s)) as [-> | Hr];
      [now rewrite !lookup_delete_eq |].
    destruct (decide (p = output_path batch_verify.CSHARP_DIR m s)) as [-> | Hc];
      repeat first [rewrite lookup_delete_eq
                   | rewrite lookup_delete_ne by congruence];
      reflexivity.
Qed.

(** X13. Whatever the engines do, a result of [verify_model] names the
    model and seed it was asked about and has one of four statuses; a
    [verified] result has accuracy 100.0 and message ["MATCH"], and in the
    file system it leaves behind both artifacts exist, parse, and have
    equal dimensions and equal states. *)
Theorem verified_means_identical_artifacts
    (run : command -> world -> outcome) (m : string) (s : Z)
    (regenerate : bool) (w w' : world) (r : batch_verify.result) :
  batch_verify.verify_model run m s regenerate w = (r, w') ->
  batch_verify.name r = m /\ batch_verify.seed r = s /\
  batch_verify.status r
    ∈ ["verified"; "failed"; "csharp_failed"; "rust_failed"] /\
  (batch_verify.status r = "verified" ->
   batch_verify.accuracy r = Some 100%float /\
   batch_verify.message r = "MATCH" /\
   exists a b,
     files w' !! output_path batch_verify.CSHARP_DIR m s = Some (Json a) /\
     files w' !! output_path batch_verify.RUST_DIR m s = Some (Json b) /\
     dimensions a = dimensions b /\ state a = state b).
Proof.
  unfold batch_verify.verify_model.
  destruct (batch_verify.generate_csharp run m s _) as [[] w1]; cbn.
  2:{ intros E. injection E as <- <-. cbn.
      split; [reflexivity |]. split; [reflexivity |].
      split; [set_solver |]. discriminate. }
  destruct (batch_verify.generate_rust run m s w1) as [[] w2]; cbn.
  2:{ intros E. injection E as <- <-. cbn.
      split; [reflexivity |]. split; [reflexivity |].
      split; [set_solver |]. discriminate. }
  destruct (batch_verify.compare m s w2) as [[is_match acc] msg] eqn:Ec.
  intros E. injection E as <- <-. cbn.
  split; [reflexivity |]. split; [reflexivity |].
  split; [destruct is_match; set_solver |].
  destruct is_match; [| discriminate]. intros _.
  assert (fst (fst (batch_verify.compare m s w2)) = true) as Ht
    by now rewrite Ec.
  destruct (batch_compare_match_inv m s w2 Ht) as (a & b & Ha & Hb & Hd & Hs).
  rewrite (batch_compare_identical m s w2 a b Ha Hb Hd Hs) in Ec.
  injection Ec as <- <-. eauto 10.
Qed.

Lemma verified_means_identical_artifacts_witness :
  batch_verify.verify_model both_agree "Basic" 42 false empty_world
  = (basic_verified, store_of basic_grid basic_grid) /\
  batch_verify.name basic_verified = "Basic" /\
  batch_verify.seed basic_verified = 42 /\
  batch_verify.status basic_verified
    ∈ ["verified"; "failed"; "csharp_failed"; "rust_failed"] /\
  (batch_verify.status basic_verified = "verified" ->
   batch_verify.accuracy basic_verified = Some 100%float /\
   batch_verify.message basic_verified = "MATCH" /\
   exists a b,
     files (store_of basic_grid basic_grid)
       !! output_path batch_verify.CSHARP_DIR "Basic" 42 = Some (Json a) /\
     files (store_of basic_grid basic_grid)
       !! output_path batch_verify.RUST_DIR "Basic" 42 = Some (Json b) /\
     dimensions a = dimensions b /\ state a = state b).
Proof.
  assert (batch_verify.verify_model both_agree "Basic" 42 false empty_world
          = (basic_verified, store_of basic_grid basic_grid)) as E
    by (vm_compute; reflexivity).
  split; [exact E |].
  exact (verified_means_identical_artifacts both_agree "Basic" 42 false
           empty_world (store_of basic_grid basic_grid) basic_verified E).
Defined.

End batch_run.

Section batch_loop.
Import Fixtures.

Lemma verify_model_names_its_target
    (run : command -> world -> outcome) (m : string) (s : Z)
    (regenerate : bool) (w w' : world) (r : batch_verify.result) :
  batch_verify.verify_model run m s regenerate w = (r, w') ->
  batch_verify.name r = m /\ batch_verify.seed r = s.
Proof.
  unfold batch_verify.verify_model.
  destruct (batch_verify.generate_csharp run m s _) as [[] w1]; cbn;
    [| intros E; injection E as <- <-; split; reflexivity].
  destruct (batch_verify.generate_rust run m s w1) as [[] w2]; cbn;
    [| intros E; injection E as <- <-; split; reflexivity].
  destruct (batch_verify.compare m s w2) as [[is_match acc] msg].
  intros E. injection E as <- <-. split; reflexivity.
Qed.

Lemma generate_csharp_depends_on_reference_only
    (run run' : command -> world -> outcome) (m : string) (s : Z) (w : world) :
  (forall w0, run' (batch_verify.csharp_command m s) w0
              = run (batch_verify.csharp_command m s) w0) ->
  batch_verify.generate_csharp run' m s w = batch_verify.generate_csharp run m s w.
Proof.
  intros H. unfold batch_verify.generate_csharp. now rewrite H.
Qed.

(** X14. When the reference adapter fails, [verify_model] stops there: the
    result is [csharp_failed] / ["C# generation failed"] without an
    accuracy, and result and file system are the same for every engine
    that behaves alike on the reference command, so the candidate engine
    is not run. *)
Theorem reference_failure_skips_candidate
    (run run' : command -> world -> outcome) (m : string) (s : Z)
    (regenerate : bool) (w w1 : world) :
  (forall w0, run' (batch_verify.csharp_command m s) w0
              = run (batch_verify.csharp_command m s) w0) ->
  batch_verify.generate_csharp run m s
    (if regenerate then batch_verify.remove_outputs m s w else w) = (false, w1) ->
  batch_verify.verify_model run m s regenerate w
  = ({| batch_verify.name := m; batch_verify.seed := s;
        batch_verify.status := "csharp_failed";
        batch_verify.accuracy := None;
        batch_verify.message := "C# generation failed" |}, w1) /\
  batch_verify.verify_model run' m s regenerate w
  = batch_verify.verify_model run m s regenerate w.
Proof.
  intros Hsame Hc. unfold batch_verify.verify_model.
  rewrite (generate_csharp_depends_on_reference_only run run' m s _ Hsame).
  rewrite Hc. cbn. split; reflexivity.
Qed.

(** An engine whose reference side is still running at the timeout and
    whose candidate side would succeed. *)
Lemma reference_failure_skips_candidate_witness :
  batch_verify.verify_model (fun c w => TimedOut w) "Basic" 42 false empty_world
  = ({| batch_verify.name := "Basic"; batch_verify.seed := 42;
        batch_verify.status := "csharp_failed";
        batch_verify.accuracy := None;
        batch_verify.message := "C# generation failed" |}, empty_world) /\
  batch_verify.verify_model
    (fun c w => match argv c with
                | "dotnet" :: _ => TimedOut w
                | _ => both_agree c w
                end) "Basic" 42 false empty_world
  = batch_verify.verify_model (fun c w => TimedOut w) "Basic" 42 false
      empty_world.
Proof.
  apply (reference_failure_skips_candidate
           (fun c w => TimedOut w)
           (fun c w => match argv c with
                       | "dotnet" :: _ => TimedOut w
                       | _ => both_agree c w
                       end)
           "Basic" 42 false empty_world empty_world);
    [intros w0; reflexivity | reflexivity].
Defined.

Lemma verify_each_accounting (run : command -> world -> outcome)
    (seed : Z) (regenerate : bool) (to_verify : list string) :
  forall (results : list batch_verify.result) (verified failed : Z) (w : world)
         (results' : list batch_verify.result) (verified' failed' : Z)
         (w' : world),
  batch_verify.verify_each run to_verify seed regenerate results verified
    failed w = (results', verified', failed', w') ->
  exists new,
    results' = (results ++ new)%list /\
    map batch_verify.name new = to_verify /\
    Forall (fun r => batch_verify.seed r = seed) new /\
    Forall batch_verify.well_formed_result new /\
    verified' - verified
    = Z.of_nat (length (List.filter
                          (fun r => String.eqb (batch_verify.status r) "verified")
                          new)) /\
    (verified' - verified) + (failed' - failed) = Z.of_nat (length to_verify).
Proof.
  induction to_verify as [| model rest IH];
    intros results verified failed w results' verified' failed' w' E.
  - cbn in E. injection E as <- <- <- <-. exists [].
    rewrite app_nil_r. cbn. repeat split; try constructor; lia.
  - cbn [batch_verify.verify_each] in E.
    pose proof (verify_model_well_formed run model seed regenerate w) as Hwf.
    destruct (batch_verify.verify_model run model seed regenerate w)
      as [r w1] eqn:Ev.
    destruct (verify_model_names_its_target run model seed regenerate
                w w1 r Ev) as (Hn & Hs).
    cbn [fst] in Hwf.
    destruct (String.eqb (batch_verify.status r) "verified") eqn:Est;
      apply IH in E as (new & -> & Hnames & Hseeds & Hwfs & Hv & Hsum);
      exists (r :: new); rewrite <- app_assoc; cbn [app map length List.filter];
      rewrite Est; cbn [length];
      (split; [reflexivity |]); (split; [now rewrite Hn, Hnames |]);
      (split; [now constructor |]); (split; [now constructor |]);
      split; lia.
Qed.

(** X15. When a batch run reports a summary, it holds exactly one result
    per selected model, in the order of the selection and with the seed of
    the invocation; the verified count is the number of results with status
    [verified], and verified and failed counts add up to the total, which
    is the number of selected models. *)
Theorem batch_summary_accounts_for_every_model
    (run : command -> world -> outcome) (a : batch_verify.args)
    (root : list batch_verify.model_elem) (w w' : world)
    (results : list batch_verify.result) (verified failed total : Z) :
  batch_verify.main run a root w
  = inr (batch_verify.Summary results verified failed total, w') ->
  batch_verify.select a (batch_verify.get_all_models root)
  = batch_verify.ToVerify (map batch_verify.name results) /\
  Forall (fun r => batch_verify.seed r = batch_verify.args_seed a) results /\
  total = Z.of_nat (length results) /\
  verified
  = Z.of_nat (length (List.filter
                        (fun r => String.eqb (batch_verify.status r) "verified")
                        results)) /\
  verified + failed = total.
Proof.
  unfold batch_verify.main.
  destruct (batch_verify.select a (batch_verify.get_all_models root))
    as [l | l | to_verify |]; try discriminate.
  destruct (batch_verify.verify_each run to_verify (batch_verify.args_seed a)
              (batch_verify.args_regenerate a) [] 0 0 w)
    as [[[results0 verified0] failed0] w1] eqn:Ev.
  destruct (batch_verify.update_status results0 w1) as [e | w2]; [discriminate |].
  cbn. intros E. injection E as <- <- <- <- <-.
  apply verify_each_accounting in Ev
    as (new & -> & Hnames & Hseeds & _ & Hv & Hsum).
  cbn [app]. rewrite Hnames. split; [reflexivity |].
  split; [exact Hseeds |].
  split; [now rewrite <- Hnames, length_map |].
  split; lia.
Qed.

Lemma batch_summary_accounts_for_every_model_witness :
  batch_verify.select verify_basic (batch_verify.get_all_models manifest)
  = batch_verify.ToVerify (map batch_verify.name [basic_verified]) /\
  Forall (fun r => batch_verify.seed r = batch_verify.args_seed verify_basic)
    [basic_verified] /\
  1 = Z.of_nat (length [basic_verified]) /\
  1 = Z.of_nat (length (List.filter
                          (fun r => String.eqb (batch_verify.status r) "verified")
                          [basic_verified])) /\
  1 + 0 = 1.
Proof.
  apply (batch_summary_accounts_for_every_model both_agree verify_basic manifest
           empty_world
           (write_status
              (Ledger.record_verified "Basic"
                 (batch_verify.verified_entry 42 100%float) empty_status)
              (store_of basic_grid basic_grid))).
  vm_compute. reflexivity.
Defined.

End batch_loop.

(** ** More on the ledger update *)

Section ledger_more.
Import Ledger Fixtures.

Implicit Types (st : ledger) (model k : string).

Lemma record_results_app (a b : list batch_verify.result) :
  forall st,
  batch_verify.record_results st (a ++ b)
  = batch_verify.record_results st a
      ≫= fun st' => batch_verify.record_results st' b.
Proof.
  induction a as [| r a IH]; intros st; [reflexivity |].
  cbn [app batch_verify.record_results].
  destruct (batch_verify.record_result st r) as [e | st1]; [reflexivity |].
  cbn. apply IH.
Qed.

Lemma initial_status_write_status (st : ledger) (w : world) :
  batch_verify.initial_status (write_status st w) = inr st.
Proof. reflexivity. Qed.

(** X16. When the ledger update with a first list of results succeeds and
    the update with a second list, run on the file system the first one
    left, succeeds too, then the single update with both lists in sequence
    succeeds and writes the same file system; conversely, when the single
    update succeeds, so do the two successive ones, with that outcome. *)
Theorem update_status_in_two_steps (a b : list batch_verify.result) (w : world) :
  (forall w1 w2,
     batch_verify.update_status a w = inr w1 ->
     batch_verify.update_status b w1 = inr w2 ->
     batch_verify.update_status (a ++ b) w = inr w2) /\
  (forall w2,
     batch_verify.update_status (a ++ b) w = inr w2 ->
     exists w1,
       batch_verify.update_status a w = inr w1 /\
       batch_verify.update_status b w1 = inr w2).
Proof.
  unfold batch_verify.update_status.
  destruct (batch_verify.initial_status w) as [e | st] eqn:Hw; cbn;
    [split; [intros ? ? H; discriminate | intros ? H; discriminate] |].
  rewrite record_results_app.
  destruct (batch_verify.record_results st a) as [e | st1]; cbn;
    [split; [intros ? ? H; discriminate | intros ? H; discriminate] |].
  split.
  - intros w1 w2 E1. injection E1 as <-.
    rewrite initial_status_write_status. cbn.
    destruct (batch_verify.record_results st1 b) as [e | st2]; cbn;
      [discriminate |].
    intros E2. injection E2 as <-. reflexivity.
  - intros w2 E. exists (write_status st1 w). split; [reflexivity |].
    rewrite initial_status_write_status. cbn.
    destruct (batch_verify.record_results st1 b) as [e | st2]; cbn in *;
      [discriminate |].
    injection E as <-. reflexivity.
Qed.

Lemma update_status_in_two_steps_witness :
  let w1 :=
    write_status
      (record_failed "Basic"
         (batch_verify.failed_entry 42 (JFloat 50%float) "50.00% (8 differ)")
         stale_ledger) stale_world in
  let w2 :=
    write_status
      (record_verified "Basic" (batch_verify.verified_entry 42 100%float)
         (record_failed "Basic"
            (batch_verify.failed_entry 42 (JFloat 50%float) "50.00% (8 differ)")
            stale_ledger)) stale_world in
  batch_verify.update_status [basic_failed] stale_world = inr w1 /\
  batch_verify.update_status [basic_verified] w1 = inr w2 /\
  batch_verify.update_status ([basic_failed] ++ [basic_verified]) stale_world
  = inr w2.
Proof.
  intros w1 w2.
  assert (batch_verify.update_status [basic_failed] stale_world = inr w1) as E1
    by (vm_compute; reflexivity).
  assert (batch_verify.update_status [basic_verified] w1 = inr w2) as E2
    by (vm_compute; reflexivity).
  split; [exact E1 |]. split; [exact E2 |].
  destruct (update_status_in_two_steps [basic_failed] [basic_verified]
              stale_world) as [H _].
  exact (H w1 w2 E1 E2).
Defined.

(** X17. What the ledger update does when the status file lacks a
    category: a verified result needs [verified] ([KeyError] otherwise) but
    not [failed]; a failed result needs [failed]; a verified result without
    accuracy raises [KeyError]; and an unreadable status file makes
    [update_status] raise before any result is looked at. *)
Theorem update_status_missing_category (st : ledger)
    (r : batch_verify.result) :
  (batch_verify.status r = "verified" -> batch_verify.accuracy r = None ->
   batch_verify.record_result st r = inl (KeyError "accuracy")) /\
  (batch_verify.status r = "verified" -> is_Some (batch_verify.accuracy r) ->
   st !! "verified" = None ->
   batch_verify.record_result st r = inl (KeyError "verified")) /\
  (forall acc verified,
     batch_verify.status r = "verified" -> batch_verify.accuracy r = Some acc ->
     st !! "verified" = Some verified -> st !! "failed" = None ->
     batch_verify.record_result st r
     = inr (<["verified" :=
               <[batch_verify.name r :=
                   batch_verify.verified_entry (batch_verify.seed r) acc]>
                 verified]> st)) /\
  (batch_verify.status r = "failed" -> st !! "failed" = None ->
   batch_verify.record_result st r = inl (KeyError "failed")) /\
  (forall err results w,
     status_file w = Some (LedgerMalformed err) ->
     batch_verify.update_status results w = inl (JSONDecodeError err)).
Proof.
  split; [| split; [| split; [| split]]].
  - intros Hs Ha. unfold batch_verify.record_result. now rewrite Hs, Ha.
  - intros Hs [acc Ha] Hv. unfold batch_verify.record_result.
    rewrite Hs, Ha. cbn. unfold category_of. now rewrite Hv.
  - intros acc verified Hs Ha Hv Hf.
    rewrite (record_result_verified st r acc Hs Ha) by eauto.
    unfold record_verified. rewrite (get_category_lookup _ _ _ Hv).
    rewrite lookup_insert_ne by done. now rewrite Hf.
  - intros Hs Hf. unfold batch_verify.record_result.
    rewrite Hs. cbn. unfold category_of. now rewrite Hf.
  - intros err results w Hw. unfold batch_verify.update_status,
      batch_verify.initial_status. now rewrite Hw.
Qed.

Lemma update_status_missing_category_witness :
  batch_verify.record_result ∅ basic_verified = inl (KeyError "verified") /\
  batch_verify.record_result ∅ basic_failed = inl (KeyError "failed") /\
  batch_verify.update_status [basic_verified] bare_world
  = inl (KeyError "verified").
Proof.
  destruct (update_status_missing_category ∅ basic_verified)
    as (_ & Hv & _).
  destruct (update_status_missing_category ∅ basic_failed)
    as (_ & _ & _ & Hf & _).
  split; [apply Hv; [reflexivity | vm_compute; eauto | reflexivity] |].
  split; [apply Hf; reflexivity |].
  vm_compute. reflexivity.
Defined.

Lemma exclusive_alt st :
  exclusive st <->
  forall model, get_category "verified" st !! model = None \/
                get_category "failed" st !! model = None.
Proof.
  unfold exclusive. split; intros H model.
  - destruct (get_category "verified" st !! model) eqn:Ev; [| auto].
    destruct (get_category "failed" st !! model) eqn:Ef; [| auto].
    exfalso. apply (H model). rewrite Ev, Ef. eauto.
  - intros [[? Hv] [? Hf]]. destruct (H model); congruence.
Qed.

Lemma record_failed_failed model (e : entry) st :
  get_category "failed" (record_failed model e st) !! model = Some e.
Proof.
  unfold record_failed. unfold get_category at 1.
  rewrite lookup_insert_eq. cbn. apply lookup_insert_eq.
Qed.

(** X18. The rule that a model is under at most one of [verified] and
    [failed] survives the recording of a verified result, but survives the
    recording of a failed result only if the model was not under
    [verified]: a failure after a success leaves the model in both. *)
Theorem exclusive_kept_by_verified_only st (r : batch_verify.result) :
  has_categories st -> exclusive st ->
  (forall acc,
     batch_verify.status r = "verified" -> batch_verify.accuracy r = Some acc ->
     exists st', batch_verify.record_result st r = inr st' /\ exclusive st') /\
  (batch_verify.status r = "failed" ->
   exists st', batch_verify.record_result st r = inr st' /\
     (exclusive st' <->
      get_category "verified" st !! batch_verify.name r = None)).
Proof.
  intros Hc Hex0. pose proof Hc as [Hv Hf].
  pose proof (proj1 (exclusive_alt st) Hex0) as Hex. split.
  - intros acc Hs Ha. eexists.
    split; [apply (record_result_verified st r acc); assumption |].
    apply (proj2 (exclusive_alt _)). intros model.
    destruct (decide (model = batch_verify.name r)) as [-> | Hne].
    + right. apply record_verified_failed.
    + rewrite !record_verified_other_model by exact Hne. apply Hex.
  - intros Hs. eexists. split; [now apply record_result_failed |].
    rewrite exclusive_alt. split.
    + intros H. destruct (H (batch_verify.name r)) as [H' | H'].
      * unfold get_category in H' at 1.
        rewrite record_failed_verified in H'. exact H'.
      * rewrite record_failed_failed in H'. discriminate.
    + intros Hn model.
      destruct (decide (model = batch_verify.name r)) as [-> | Hne].
      * left. unfold get_category at 1.
        rewrite record_failed_verified. exact Hn.
      * rewrite !record_failed_other_model by exact Hne. apply Hex.
Qed.

Lemma exclusive_kept_by_verified_only_witness :
  (exists st', batch_verify.record_result stale_ledger basic_verified = inr st' /\
               exclusive st') /\
  (exists st', batch_verify.record_result stale_ledger river_failed = inr st' /\
     (exclusive st' <-> get_category "verified" stale_ledger !! "River" = None)).
Proof.
  assert (has_categories stale_ledger) as Hc by (split; vm_compute; eauto).
  assert (exclusive stale_ledger) as Hex.
  { apply (proj2 (exclusive_alt _)). intros model.
    destruct (decide (model = "River")) as [-> | Hne];
      [right; vm_compute; reflexivity |].
    left. unfold get_category, stale_ledger. rewrite lookup_insert_eq. cbn.
    now rewrite lookup_singleton_ne. }
  split.
  - destruct (exclusive_kept_by_verified_only stale_ledger basic_verified Hc Hex)
      as [H _].
    apply (H 100%float); reflexivity.
  - destruct (exclusive_kept_by_verified_only stale_ledger river_failed Hc Hex)
      as [_ H].
    apply H. reflexivity.
Defined.

End ledger_more.
